(** * InspireWorks IVR: a shallow embedding of [app.py]

    The program is a Flask application with seven views.  Six of them are
    embedded, each as a function of the process environment and of the
    current request ([index] only renders a template that is not part of
    the program text).  The Plivo SDK and its XML serialiser, which live
    outside the repository, are parameters of the development.

    Python [str] values are modelled by [string], read as the UTF-8 bytes of
    the text.  The program only compares, concatenates and strips strings and
    tests their first character, all of which agree on code points and on
    their UTF-8 encoding. *)

From Stdlib Require Import String Ascii List ZArith Bool Lia DecimalString.
Import ListNotations.
Open Scope string_scope.

Set Warnings "-register-all".

(** ** Python values, exceptions and results *)

Module Py.

(** What [request.get_json()] can produce, and the shape of the module-level
    dictionaries.  Non-integer JSON numbers are left out. *)
Inductive value : Type :=
| VNone
| VBool (b : bool)
| VInt (z : Z)
| VStr (s : string)
| VList (l : list value)
| VDict (d : list (string * value)).

(** Exception classes the program can meet.  [ValidationError] is the
    subclass of [PlivoRestError] that the first [except] clause of
    [make_call] singles out; [PlivoRestError] stands for the base class and
    its other subclasses; [HTTPException] is werkzeug's (raised by
    [get_json] on an unreadable body); [OtherException] is any further
    subclass of [Exception]. *)
Inductive exn_class : Type :=
| KeyError
| TypeError
| AttributeError
| BuildError
| HTTPException
| ValidationError
| PlivoRestError
| OtherException.

(** An exception: its class and the text [str(e)] gives. *)
Record exn : Type := Raise { class_of : exn_class; str : string }.

Definition result (A : Type) : Type := (exn + A)%type.

Definition ret {A : Type} (a : A) : result A := inr a.
Definition raise {A : Type} (c : exn_class) (msg : string) : result A :=
  inl (Raise c msg).
Definition bind {A B : Type} (m : result A) (k : A -> result B) : result B :=
  match m with
  | inl e => inl e
  | inr a => k a
  end.

(** [isinstance(e, plivo.exceptions.ValidationError)] *)
Definition is_ValidationError (e : exn) : bool :=
  match class_of e with
  | ValidationError => true
  | _ => false
  end.

(** [isinstance(e, plivo.exceptions.PlivoRestError)] *)
Definition is_PlivoRestError (e : exn) : bool :=
  match class_of e with
  | ValidationError | PlivoRestError => true
  | _ => false
  end.

(** First binding of a key, as a [dict] built from a literal or from a
    parsed JSON object is represented by its items. *)
Fixpoint assoc {A : Type} (k : string) (l : list (string * A)) : option A :=
  match l with
  | [] => None
  | (k', v) :: l' => if String.eqb k k' then Some v else assoc k l'
  end.

(** Python's [repr] of a key, used in the text of a [KeyError]. *)
Definition quoted (k : string) : string := "'" ++ k ++ "'".

Definition type_name (v : value) : string :=
  match v with
  | VNone => "NoneType"
  | VBool _ => "bool"
  | VInt _ => "int"
  | VStr _ => "str"
  | VList _ => "list"
  | VDict _ => "dict"
  end.

Definition no_attribute (v : value) (attr : string) : string :=
  "'" ++ type_name v ++ "' object has no attribute '" ++ attr ++ "'".

(** [d[k]] on the module-level catalogs (a [dict] or a [str]). *)
Definition getitem (v : value) (k : string) : result value :=
  match v with
  | VDict d =>
      match assoc k d with
      | Some x => ret x
      | None => raise KeyError (quoted k)
      end
  | _ => raise TypeError ("'" ++ type_name v ++ "' object is not subscriptable by str")
  end.

(** [d.get(k)]: [None] when the key is absent, [AttributeError] when the
    receiver is not a [dict]. *)
Definition get (v : value) (k : string) : result value :=
  match v with
  | VDict d =>
      match assoc k d with
      | Some x => ret x
      | None => ret VNone
      end
  | _ => raise AttributeError (no_attribute v "get")
  end.

(** Truth value of an object, as [not x] tests it. *)
Definition truthy (v : value) : bool :=
  match v with
  | VNone => false
  | VBool b => b
  | VInt z => negb (Z.eqb z 0)
  | VStr s => negb (String.eqb s "")
  | VList l => match l with [] => false | _ => true end
  | VDict d => match d with [] => false | _ => true end
  end.

(** The receiver of a [str] method: among the values above only a [str]
    has the attribute. *)
Definition str_method (v : value) (attr : string) : result string :=
  match v with
  | VStr s => ret s
  | _ => raise AttributeError (no_attribute v attr)
  end.

(** A catalog entry used as a [str] (concatenated or handed to the SDK). *)
Definition as_str (v : value) : result string :=
  match v with
  | VStr s => ret s
  | _ => raise TypeError ("expected str, got " ++ type_name v)
  end.

(** [s.startswith(p)] *)
Definition startswith (s p : string) : bool := String.prefix p s.

(** [s.rstrip('/')]: every trailing slash is removed. *)
Fixpoint rstrip_slash (s : string) : string :=
  match s with
  | EmptyString => EmptyString
  | String c s' =>
      match rstrip_slash s' with
      | EmptyString =>
          if Ascii.eqb c "/"%char then EmptyString else String c EmptyString
      | t => String c t
      end
  end.

(** [x in l] for a list of strings. *)
Definition mem (x : string) (l : list string) : bool :=
  existsb (String.eqb x) l.

End Py.

Notation "x <- m ;; k" := (Py.bind m (fun x => k))
  (at level 61, m at next level, right associativity).

(** ** Configuration *)

(** [os.environ] *)
Definition environ : Type := list (string * string).

(** [os.getenv(key)] and [os.getenv(key, default)] *)
Definition getenv (env : environ) (key : string) : option string :=
  Py.assoc key env.

Definition getenv_default (env : environ) (key default : string) : string :=
  match getenv env key with
  | Some v => v
  | None => default
  end.

Definition PLIVO_AUTH_ID (env : environ) : option string :=
  getenv env "PLIVO_AUTH_ID".
Definition PLIVO_AUTH_TOKEN (env : environ) : option string :=
  getenv env "PLIVO_AUTH_TOKEN".
Definition PLIVO_PHONE_NUMBER (env : environ) : string :=
  getenv_default env "PLIVO_PHONE_NUMBER" "+14692463990".
Definition ASSOCIATE_NUMBER (env : environ) : string :=
  getenv_default env "ASSOCIATE_NUMBER" "+918031274121".

Definition AUDIO_FILES : Py.value :=
  Py.VDict
    [ ("english", Py.VStr "https://s3.amazonaws.com/plivocloud/Trumpet.mp3");
      ("spanish", Py.VStr "https://s3.amazonaws.com/plivocloud/Trumpet.mp3") ].

(** ** Messages *)

Definition MESSAGES : Py.value :=
  Py.VDict
    [ ("welcome", Py.VDict
         [ ("english", Py.VStr "Welcome to InspireWorks. ");
           ("spanish", Py.VStr "Bienvenido a InspireWorks. ") ]);
      ("language_select", Py.VStr
         ("Press 1 for English. " ++
          "Para Español, oprima 2. "));
      ("main_menu", Py.VDict
         [ ("english", Py.VStr
              ("You have selected English. " ++
               "Press 1 to hear a short audio message. " ++
               "Press 2 to speak with a live associate. "));
           ("spanish", Py.VStr
              ("Ha seleccionado Español. " ++
               "Oprima 1 para escuchar un mensaje de audio. " ++
               "Oprima 2 para hablar con un asociado. ")) ]);
      ("playing_audio", Py.VDict
         [ ("english", Py.VStr "Now playing your audio message.");
           ("spanish", Py.VStr "Reproduciendo su mensaje de audio.") ]);
      ("connecting", Py.VDict
         [ ("english", Py.VStr
              "Please wait while we connect you to a live associate.");
           ("spanish", Py.VStr
              "Por favor espere mientras lo conectamos con un asociado.") ]);
      ("invalid_input", Py.VDict
         [ ("english", Py.VStr
              "Sorry, that is not a valid option. Please try again.");
           ("spanish", Py.VStr
              "Lo siento, esa no es una opción válida. Por favor intente de nuevo.") ]);
      ("no_input", Py.VDict
         [ ("english", Py.VStr "We did not receive any input.");
           ("spanish", Py.VStr "No recibimos ninguna entrada.") ]);
      ("goodbye", Py.VDict
         [ ("english", Py.VStr "Thank you for calling InspireWorks. Goodbye!");
           ("spanish", Py.VStr "Gracias por llamar a InspireWorks. ¡Adiós!") ]) ].

(** [MESSAGES[key][lang]], the two subscripts in the order Python takes them *)
Definition message (key lang : string) : Py.result string :=
  m <- Py.getitem MESSAGES key ;;
  v <- Py.getitem m lang ;;
  Py.as_str v.

(** ** Markup documents ([plivoxml]) *)

(** The elements the program builds, each with the attributes the program
    sets.  The SDK's constructors are taken as data constructors. *)
Inductive Element : Type :=
| ResponseElement (children : list Element)
| GetDigitsElement (action method : string) (timeout num_digits retries : Z)
    (valid_digits : string) (children : list Element)
| SpeakElement (content voice language : string)
| PlayElement (url : string)
| DialElement (caller_id : string) (timeout : Z) (children : list Element)
| NumberElement (number : string)
| RedirectElement (url method : string)
| HangupElement.

(** [parent.add(child)]: the child is appended in place; the state of the
    parent is threaded through the view. *)
Definition add (parent child : Element) : Element :=
  match parent with
  | ResponseElement cs => ResponseElement (cs ++ [child])
  | GetDigitsElement a m t n r v cs => GetDigitsElement a m t n r v (cs ++ [child])
  | DialElement c t cs => DialElement c t (cs ++ [child])
  | _ => parent
  end.

Definition add_speak (parent : Element) (content voice language : string) : Element :=
  add parent (SpeakElement content voice language).
Definition add_play (parent : Element) (url : string) : Element :=
  add parent (PlayElement url).
Definition add_number (parent : Element) (number : string) : Element :=
  add parent (NumberElement number).
Definition add_redirect (parent : Element) (url method : string) : Element :=
  add parent (RedirectElement url method).
Definition add_hangup (parent : Element) : Element :=
  add parent HangupElement.

(** ** Requests, routes and responses (Flask) *)

Record Request : Type := {
  method : string;
  path : string;
  (** [request.url_root], scheme, host and script root with a final slash *)
  url_root : string;
  (** [request.form], the items of the posted form *)
  form : list (string * string);
  (** what [request.get_json()] does on this request *)
  get_json : Py.result Py.value
}.

(** [request.form.get(key, default)] *)
Definition form_get (req : Request) (key default : string) : string :=
  match Py.assoc key (form req) with
  | Some v => v
  | None => default
  end.

(** A piece of a route: literal text or a [<name>] variable. *)
Inductive segment : Type :=
| Lit (s : string)
| Var (name : string).

Record rule : Type := {
  pattern : list segment;
  methods : list string;
  endpoint : string
}.

(** The [@app.route] decorators, in source order. *)
Definition url_map : list rule :=
  [ {| pattern := [Lit ""]; methods := ["GET"]; endpoint := "index" |};
    {| pattern := [Lit "make-call"]; methods := ["POST"]; endpoint := "make_call" |};
    {| pattern := [Lit "ivr"; Lit "welcome"]; methods := ["GET"; "POST"];
       endpoint := "ivr_welcome" |};
    {| pattern := [Lit "ivr"; Lit "language-handler"]; methods := ["POST"];
       endpoint := "ivr_language_handler" |};
    {| pattern := [Lit "ivr"; Lit "main-menu"; Var "lang"]; methods := ["GET"; "POST"];
       endpoint := "ivr_main_menu" |};
    {| pattern := [Lit "ivr"; Lit "menu-handler"; Var "lang"]; methods := ["POST"];
       endpoint := "ivr_menu_handler" |};
    {| pattern := [Lit "health"]; methods := ["GET"]; endpoint := "health_check" |} ].

Fixpoint build_path (p : list segment) (values : list (string * string))
  : Py.result string :=
  match p with
  | [] => Py.ret ""
  | Lit s :: p' =>
      rest <- build_path p' values ;;
      Py.ret ("/" ++ s ++ rest)
  | Var x :: p' =>
      match Py.assoc x values with
      | Some v =>
          rest <- build_path p' values ;;
          Py.ret ("/" ++ v ++ rest)
      | None => Py.raise Py.BuildError ("missing value for " ++ x)
      end
  end.

(** [url_for(endpoint, _external=True, **values)] for values that fill the
    variables of the rule and need no quoting.  The absolute prefix is the
    URL root of the request without its final slash, which is what the
    framework uses for a host in ASCII and a script root that needs no
    quoting; for other hosts and script roots the two differ in how the
    prefix is encoded. *)
Definition url_for (req : Request) (name : string) (values : list (string * string))
  : Py.result string :=
  match find (fun r => String.eqb (endpoint r) name) url_map with
  | Some r =>
      p <- build_path (pattern r) values ;;
      Py.ret (Py.rstrip_slash (url_root req) ++ p)
  | None => Py.raise Py.BuildError ("could not build url for endpoint " ++ name)
  end.

Inductive Body : Type :=
| Json (v : Py.value)
| Text (s : string).

Record HttpResponse : Type := {
  status : Z;
  mimetype : string;
  body : Body
}.

(** [jsonify(d)] *)
Definition jsonify (d : list (string * Py.value)) : HttpResponse :=
  {| status := 200; mimetype := "application/json"; body := Json (Py.VDict d) |}.

(** [return response, code] *)
Definition with_status (r : HttpResponse) (code : Z) : HttpResponse :=
  {| status := code; mimetype := mimetype r; body := body r |}.

(** [Response(text, mimetype=...)] *)
Definition Response (text mime : string) : HttpResponse :=
  {| status := 200; mimetype := mime; body := Text text |}.

(** ** The Plivo REST client *)

(** The keyword arguments of [client.calls.create]. *)
Record CallRequest : Type := {
  from_ : string;
  to_ : string;
  answer_url : string;
  answer_method : string
}.

(** A computation of [make_call]: its result or the exception it raises,
    and the call-placement requests it has sent, oldest first. *)
Definition Calls (A : Type) : Type := (Py.result A * list CallRequest)%type.

Definition pure {A : Type} (m : Py.result A) : Calls A := (m, []).

Definition and_then {A B : Type} (m : Calls A) (k : A -> Calls B) : Calls B :=
  match m with
  | (inl e, sent) => (inl e, sent)
  | (inr a, sent) => let (r, sent') := k a in (r, (sent ++ sent')%list)
  end.

Notation "x <~ m ;; k" := (and_then m (fun x => k))
  (at level 61, m at next level, right associativity).

(** The object [client.calls.create] returns. *)
Record CreateResponse : Type := { request_uuid : string }.

(** ** The views *)

Section App.

(** The SDK: the client's constructor (which checks the credentials and may
    raise), the call-placement request, and the serialiser of documents.
    The serialiser is taken where it returns, on documents whose texts XML
    can carry. *)
Variable Client : Type.
Variable RestClient : option string -> option string -> Py.result Client.
Variable calls_create : Client -> CallRequest -> Py.result CreateResponse.
Variable to_string : Element -> string.

(** [client.calls.create(...)]: the request is recorded as sent, whatever
    the SDK answers. *)
Definition create (client : Client) (r : CallRequest) : Calls CreateResponse :=
  (calls_create client r, [r]).

(** [jsonify({'success': False, 'error': msg}), code], the shape of every
    error answer of [make_call]. *)
Definition failure (msg : string) (code : Z) : HttpResponse :=
  with_status (jsonify [("success", Py.VBool false); ("error", Py.VStr msg)]) code.

(** The body of the [try] block of [make_call]. *)
Definition make_call_try (env : environ) (req : Request) : Calls HttpResponse :=
  data <~ pure (get_json req) ;;
  target_number <~ pure (Py.get data "target_number") ;;
  if negb (Py.truthy target_number) then
    pure (Py.ret (failure "Target number is required" 400))
  else
    s <~ pure (Py.str_method target_number "startswith") ;;
    let target_number := if negb (Py.startswith s "+") then "+" ++ s else s in
    client <~ pure (RestClient (PLIVO_AUTH_ID env) (PLIVO_AUTH_TOKEN env)) ;;
    let base_url := getenv_default env "BASE_URL" (Py.rstrip_slash (url_root req)) in
    let answer_url := base_url ++ "/ivr/welcome" in
    response <~ create client
      {| from_ := PLIVO_PHONE_NUMBER env;
         to_ := target_number;
         answer_url := answer_url;
         answer_method := "GET" |} ;;
    pure (Py.ret (jsonify
      [ ("success", Py.VBool true);
        ("message", Py.VStr ("Call initiated to " ++ target_number));
        ("call_uuid", Py.VStr (request_uuid response)) ])).

(** The three [except] clauses, tried in source order. *)
Definition make_call_except (e : Py.exn) : HttpResponse :=
  if Py.is_ValidationError e then
    failure ("Validation error: " ++ Py.str e) 400
  else if Py.is_PlivoRestError e then
    failure ("Plivo API error: " ++ Py.str e) 500
  else
    failure (Py.str e) 500.

Definition make_call (env : environ) (req : Request)
  : HttpResponse * list CallRequest :=
  let (r, sent) := make_call_try env req in
  match r with
  | inr resp => (resp, sent)
  | inl e => (make_call_except e, sent)
  end.

Definition ivr_welcome (env : environ) (req : Request) : Py.result HttpResponse :=
  let response := ResponseElement [] in
  action <- url_for req "ivr_language_handler" [] ;;
  let get_digits := GetDigitsElement action "POST" 10 1 2 "12" [] in
  welcome <- message "welcome" "english" ;;
  v <- Py.getitem MESSAGES "language_select" ;;
  language_select <- Py.as_str v ;;
  let get_digits :=
    add_speak get_digits (welcome ++ language_select) "Polly.Joanna" "en-US" in
  let response := add response get_digits in
  no_input <- message "no_input" "english" ;;
  goodbye <- message "goodbye" "english" ;;
  let response :=
    add_speak response (no_input ++ " " ++ goodbye) "Polly.Joanna" "en-US" in
  let response := add_hangup response in
  Py.ret (Response (to_string response) "text/xml").

Definition ivr_language_handler (env : environ) (req : Request)
  : Py.result HttpResponse :=
  let response := ResponseElement [] in
  let digit := form_get req "Digits" "" in
  response <-
    (if String.eqb digit "1" then
       url <- url_for req "ivr_main_menu" [("lang", "english")] ;;
       Py.ret (add_redirect response url "GET")
     else if String.eqb digit "2" then
       url <- url_for req "ivr_main_menu" [("lang", "spanish")] ;;
       Py.ret (add_redirect response url "GET")
     else
       invalid <- message "invalid_input" "english" ;;
       let response := add_speak response invalid "Polly.Joanna" "en-US" in
       url <- url_for req "ivr_welcome" [] ;;
       Py.ret (add_redirect response url "GET")) ;;
  Py.ret (Response (to_string response) "text/xml").

(** The first two statements of both main-menu views. *)
Definition validate_language (lang : string) : string :=
  if negb (Py.mem lang ["english"; "spanish"]) then "english" else lang.

Definition voice_of (lang : string) : string :=
  if String.eqb lang "english" then "Polly.Joanna" else "Polly.Conchita".

Definition voice_lang_of (lang : string) : string :=
  if String.eqb lang "english" then "en-US" else "es-ES".

Definition ivr_main_menu (env : environ) (req : Request) (lang : string)
  : Py.result HttpResponse :=
  let lang := validate_language lang in
  let voice := voice_of lang in
  let voice_lang := voice_lang_of lang in
  let response := ResponseElement [] in
  action <- url_for req "ivr_menu_handler" [("lang", lang)] ;;
  let get_digits := GetDigitsElement action "POST" 10 1 2 "12" [] in
  main_menu <- message "main_menu" lang ;;
  let get_digits := add_speak get_digits main_menu voice voice_lang in
  let response := add response get_digits in
  no_input <- message "no_input" lang ;;
  goodbye <- message "goodbye" lang ;;
  let response := add_speak response (no_input ++ " " ++ goodbye) voice voice_lang in
  let response := add_hangup response in
  Py.ret (Response (to_string response) "text/xml").

Definition ivr_menu_handler (env : environ) (req : Request) (lang : string)
  : Py.result HttpResponse :=
  let lang := validate_language lang in
  let voice := voice_of lang in
  let voice_lang := voice_lang_of lang in
  let response := ResponseElement [] in
  let digit := form_get req "Digits" "" in
  response <-
    (if String.eqb digit "1" then
       playing <- message "playing_audio" lang ;;
       let response := add_speak response playing voice voice_lang in
       v <- Py.getitem AUDIO_FILES lang ;;
       audio <- Py.as_str v ;;
       let response := add_play response audio in
       goodbye <- message "goodbye" lang ;;
       let response := add_speak response goodbye voice voice_lang in
       Py.ret (add_hangup response)
     else if String.eqb digit "2" then
       connecting <- message "connecting" lang ;;
       let response := add_speak response connecting voice voice_lang in
       let dial := DialElement (PLIVO_PHONE_NUMBER env) 30 [] in
       let dial := add_number dial (ASSOCIATE_NUMBER env) in
       let response := add response dial in
       goodbye <- message "goodbye" lang ;;
       let response := add_speak response goodbye voice voice_lang in
       Py.ret (add_hangup response)
     else
       invalid <- message "invalid_input" lang ;;
       let response := add_speak response invalid voice voice_lang in
       url <- url_for req "ivr_main_menu" [("lang", lang)] ;;
       Py.ret (add_redirect response url "GET")) ;;
  Py.ret (Response (to_string response) "text/xml").

Definition health_check (env : environ) (req : Request) : HttpResponse :=
  jsonify [ ("status", Py.VStr "healthy");
            ("service", Py.VStr "InspireWorks IVR Demo") ].

(** *** Routing *)

(** [s.split('/')] *)
Fixpoint split_slash (s : string) : list string :=
  match s with
  | EmptyString => [""]
  | String c s' =>
      match split_slash s' with
      | [] => [String c ""]
      | w :: ws =>
          if Ascii.eqb c "/"%char then "" :: w :: ws else String c w :: ws
      end
  end.

(** A rule against the pieces of a path; a variable takes one non-empty
    piece (the default converter). *)
Fixpoint match_pattern (p : list segment) (pieces : list string)
  : option (list (string * string)) :=
  match p, pieces with
  | [], [] => Some []
  | Lit s :: p', x :: pieces' =>
      if String.eqb s x then match_pattern p' pieces' else None
  | Var n :: p', x :: pieces' =>
      if String.eqb x "" then None
      else option_map (cons (n, x)) (match_pattern p' pieces')
  | _, _ => None
  end.

(** The methods under which a rule enters its view: those it lists, and
    HEAD whenever it lists GET (the router adds it to such a rule). *)
Definition rule_methods (r : rule) : list string :=
  if Py.mem "GET" (methods r) && negb (Py.mem "HEAD" (methods r))
  then "HEAD" :: methods r
  else methods r.

Definition match_rule (req : Request) (r : rule)
  : option (string * list (string * string)) :=
  match split_slash (path req) with
  | "" :: pieces =>
      if Py.mem (method req) (rule_methods r) then
        option_map (pair (endpoint r)) (match_pattern (pattern r) pieces)
      else None
  | _ => None
  end.

(** The endpoint and view arguments of a request, when one of the rules
    takes its method and matches its path. *)
Fixpoint match_request (req : Request) (rules : list rule)
  : option (string * list (string * string)) :=
  match rules with
  | [] => None
  | r :: rules' =>
      match match_rule req r with
      | Some m => Some m
      | None => match_request req rules'
      end
  end.

(** What a view leaves to the framework: a response and the requests sent
    to the provider, or an exception nobody caught. *)
Inductive outcome : Type :=
| Served (r : HttpResponse) (sent : list CallRequest)
| Unhandled (e : Py.exn).

Definition of_result (r : Py.result HttpResponse) : outcome :=
  match r with
  | inr resp => Served resp []
  | inl e => Unhandled e
  end.

Definition with_lang (args : list (string * string))
    (view : string -> Py.result HttpResponse) : option outcome :=
  option_map (fun lang => of_result (view lang)) (Py.assoc "lang" args).

(** The application on a request.  [None] stands for what the framework
    answers by itself (no rule, method not allowed, the automatic answer to
    OPTIONS) and for the [index] view, whose template is not part of the
    program text. *)
Definition dispatch_request (env : environ) (req : Request) : option outcome :=
  match match_request req url_map with
  | None => None
  | Some (name, args) =>
      if String.eqb name "make_call" then
        let (resp, sent) := make_call env req in Some (Served resp sent)
      else if String.eqb name "ivr_welcome" then
        Some (of_result (ivr_welcome env req))
      else if String.eqb name "ivr_language_handler" then
        Some (of_result (ivr_language_handler env req))
      else if String.eqb name "ivr_main_menu" then
        with_lang args (ivr_main_menu env req)
      else if String.eqb name "ivr_menu_handler" then
        with_lang args (ivr_menu_handler env req)
      else if String.eqb name "health_check" then
        Some (Served (health_check env req) [])
      else None
  end.

End App.

Arguments make_call {Client} RestClient calls_create env req.
Arguments make_call_try {Client} RestClient calls_create env req.
Arguments dispatch_request {Client} RestClient calls_create to_string env req.

Arguments create {Client} calls_create client r.

(** ** Sample surroundings

    Concrete requests and stand-ins for the SDK, on which the views are
    evaluated in the examples below. *)

Module Sample.

(** A plain serialiser: tags and attributes, no escaping. *)
Definition attr (name value : string) : string :=
  " " ++ name ++ "='" ++ value ++ "'".

Definition num (z : Z) : string := NilZero.string_of_int (Z.to_int z).

Fixpoint render (e : Element) : string :=
  let fix render_all (l : list Element) : string :=
    match l with
    | [] => ""
    | x :: l' => render x ++ render_all l'
    end in
  match e with
  | ResponseElement cs => "<Response>" ++ render_all cs ++ "</Response>"
  | GetDigitsElement a m t n r v cs =>
      "<GetDigits" ++ attr "action" a ++ attr "method" m
        ++ attr "timeout" (num t) ++ attr "numDigits" (num n)
        ++ attr "retries" (num r) ++ attr "validDigits" v ++ ">"
        ++ render_all cs ++ "</GetDigits>"
  | SpeakElement c v l =>
      "<Speak" ++ attr "voice" v ++ attr "language" l ++ ">" ++ c ++ "</Speak>"
  | PlayElement u => "<Play>" ++ u ++ "</Play>"
  | DialElement c t cs =>
      "<Dial" ++ attr "callerId" c ++ attr "timeout" (num t) ++ ">"
        ++ render_all cs ++ "</Dial>"
  | NumberElement n => "<Number>" ++ n ++ "</Number>"
  | RedirectElement u m => "<Redirect" ++ attr "method" m ++ ">" ++ u ++ "</Redirect>"
  | HangupElement => "<Hangup/>"
  end.

(** The provider's callback after digit collection. *)
Definition digits (target digit : string) : Request :=
  {| method := "POST";
     path := target;
     url_root := "http://localhost:5000/";
     form := [("Digits", digit)];
     get_json := inr Py.VNone |}.

(** A POST to [/make-call] on which [get_json] behaves as given. *)
Definition post_make_call (json : Py.result Py.value) : Request :=
  {| method := "POST";
     path := "/make-call";
     url_root := "http://localhost:5000/";
     form := [];
     get_json := json |}.

Definition get (target : string) : Request :=
  {| method := "GET";
     path := target;
     url_root := "http://localhost:5000/";
     form := [];
     get_json := inr Py.VNone |}.

Definition env : environ :=
  [ ("PLIVO_AUTH_ID", "MAXXXXXXXXXXXXXXXXXX");
    ("PLIVO_AUTH_TOKEN", "token");
    ("BASE_URL", "https://ivr.example.org") ].

(** A client whose constructor accepts any credentials. *)
Definition client_ok : option string -> option string -> Py.result unit :=
  fun _ _ => inr tt.

(** A constructor that finds no credentials. *)
Definition client_unauthenticated : option string -> option string -> Py.result unit :=
  fun _ _ => Py.raise Py.PlivoRestError "could not find your auth credentials".

Definition answers (uuid : string) : unit -> CallRequest -> Py.result CreateResponse :=
  fun _ _ => inr {| request_uuid := uuid |}.

Definition fails (e : Py.exn) : unit -> CallRequest -> Py.result CreateResponse :=
  fun _ _ => inl e.

End Sample.

(** ** Observations on documents and routes

    What the statements below read off a document or off the route table. *)

(** The voice and language of every [Speak] of a document, in document order. *)
Fixpoint voices (e : Element) : list (string * string) :=
  let fix voices_all (l : list Element) : list (string * string) :=
    match l with
    | [] => []
    | x :: l' => (voices x ++ voices_all l')%list
    end in
  match e with
  | ResponseElement cs => voices_all cs
  | GetDigitsElement _ _ _ _ _ _ cs => voices_all cs
  | DialElement _ _ cs => voices_all cs
  | SpeakElement _ v l => [(v, l)]
  | _ => []
  end.

(** The URL and method of every link of a document: the action of a digit
    collection and the target of a redirect. *)
Fixpoint links (e : Element) : list (string * string) :=
  let fix links_all (l : list Element) : list (string * string) :=
    match l with
    | [] => []
    | x :: l' => (links x ++ links_all l')%list
    end in
  match e with
  | ResponseElement cs => links_all cs
  | GetDigitsElement a m _ _ _ _ cs => (a, m) :: links_all cs
  | DialElement _ _ cs => links_all cs
  | RedirectElement u m => [(u, m)]
  | _ => []
  end.

(** The last instruction of a response hangs up or hands the call over. *)
Definition ends_call_or_redirects (doc : Element) : bool :=
  match doc with
  | ResponseElement cs =>
      match rev cs with
      | HangupElement :: _ => true
      | RedirectElement _ _ :: _ => true
      | _ => false
      end
  | _ => false
  end.

(** Requests of method [m] for path [p] reach the view [name] with [args]. *)
Definition routes_to (m p name : string) (args : list (string * string)) : Prop :=
  forall req' : Request,
    method req' = m -> path req' = p ->
    match_request req' url_map = Some (name, args).

(** A link leads back into the application: its URL ends with a path
    that, under the method of the link, reaches one of the views. *)
Definition served (link : string * string) : Prop :=
  exists prefix p name args,
    fst link = prefix ++ p /\
    routes_to (snd link) p name args.

(** A text without a slash. *)
Fixpoint no_slash (s : string) : bool :=
  match s with
  | EmptyString => true
  | String c s' => negb (Ascii.eqb c "/"%char) && no_slash s'
  end.

(** [doc] is the document a view serialises, whatever the serialiser. *)
Definition document_of (view : (Element -> string) -> Py.result HttpResponse)
    (doc : Element) : Prop :=
  forall to_string : Element -> string,
    view to_string = inr (Response (to_string doc) "text/xml").

(** [s.endswith('/')] *)
Fixpoint ends_with_slash (s : string) : bool :=
  match s with
  | EmptyString => false
  | String c EmptyString => Ascii.eqb c "/"%char
  | String _ s' => ends_with_slash s'
  end.

(** ['/' * n] *)
Fixpoint slashes (n : nat) : string :=
  match n with
  | O => ""
  | S n' => String "/"%char (slashes n')
  end.

(** * Properties *)

(** ** Auxiliary facts *)

Lemma validate_language_cases (lang : string) :
  validate_language lang = "english" \/ validate_language lang = "spanish".
Proof.
  unfold validate_language, Py.mem; simpl.
  destruct (String.eqb lang "english") eqn:He; simpl.
  - left. now apply String.eqb_eq.
  - destruct (String.eqb lang "spanish") eqn:Hs; simpl.
    + right. now apply String.eqb_eq.
    + now left.
Qed.

Lemma validate_language_recognized (lang : string) :
  lang = "english" \/ lang = "spanish" -> validate_language lang = lang.
Proof. intros [-> | ->]; reflexivity. Qed.

Lemma validate_language_unrecognized (lang : string) :
  lang <> "english" -> lang <> "spanish" -> validate_language lang = "english".
Proof.
  intros He Hs. unfold validate_language, Py.mem; simpl.
  apply String.eqb_neq in He. apply String.eqb_neq in Hs.
  now rewrite He, Hs.
Qed.

Lemma validate_language_idempotent (lang : string) :
  validate_language (validate_language lang) = validate_language lang.
Proof.
  apply validate_language_recognized, validate_language_cases.
Qed.

(** Both main-menu views only look at the validated language. *)
Lemma ivr_main_menu_validated to_string env req lang :
  ivr_main_menu to_string env req (validate_language lang) =
  ivr_main_menu to_string env req lang.
Proof.
  unfold ivr_main_menu. now rewrite validate_language_idempotent.
Qed.


(** ** Menu handlers *)



(** C2: at language selection, digit 1 gives exactly one element, a GET
    redirect to the main-menu endpoint built with lang=english, and digit 2
    the same with lang=spanish. *)
Theorem language_digit_routes_to_main_menu :
  forall (to_string : Element -> string) (env : environ) (req : Request),
    (form_get req "Digits" "" = "1" ->
     url_for req "ivr_main_menu" [("lang", "english")] =
       inr (Py.rstrip_slash (url_root req) ++ "/ivr/main-menu/english") /\
     ivr_language_handler to_string env req =
       inr (Response
              (to_string
                 (ResponseElement
                    [ RedirectElement
                        (Py.rstrip_slash (url_root req) ++ "/ivr/main-menu/english")
                        "GET" ]))
              "text/xml")) /\
    (form_get req "Digits" "" = "2" ->
     url_for req "ivr_main_menu" [("lang", "spanish")] =
       inr (Py.rstrip_slash (url_root req) ++ "/ivr/main-menu/spanish") /\
     ivr_language_handler to_string env req =
       inr (Response
              (to_string
                 (ResponseElement
                    [ RedirectElement
                        (Py.rstrip_slash (url_root req) ++ "/ivr/main-menu/spanish")
                        "GET" ]))
              "text/xml")).
Proof.
  intros to_string env req.
  split; intros H; (split; [reflexivity |]);
    unfold ivr_language_handler; rewrite H; reflexivity.
Qed.

Lemma language_digit_routes_to_main_menu_witness :
  (form_get (Sample.digits "/ivr/language-handler" "1") "Digits" "" = "1" /\
   ivr_language_handler Sample.render Sample.env
     (Sample.digits "/ivr/language-handler" "1") =
   inr (Response
          ("<Response><Redirect method='GET'>" ++
           "http://localhost:5000/ivr/main-menu/english</Redirect></Response>")
          "text/xml")) /\
  (form_get (Sample.digits "/ivr/language-handler" "2") "Digits" "" = "2" /\
   ivr_language_handler Sample.render Sample.env
     (Sample.digits "/ivr/language-handler" "2") =
   inr (Response
          ("<Response><Redirect method='GET'>" ++
           "http://localhost:5000/ivr/main-menu/spanish</Redirect></Response>")
          "text/xml")).
Proof.
  split; (split; [reflexivity |]).
  - destruct (language_digit_routes_to_main_menu Sample.render Sample.env
                (Sample.digits "/ivr/language-handler" "1")) as [H _].
    destruct (H eq_refl) as [_ ->]. reflexivity.
  - destruct (language_digit_routes_to_main_menu Sample.render Sample.env
                (Sample.digits "/ivr/language-handler" "2")) as [_ H].
    destruct (H eq_refl) as [_ ->]. reflexivity.
Defined.

(** C3: for a recognized language the main-menu handler answers digit 1 with
    the speak of the now-playing message, the play of the catalog's audio, the
    speak of the goodbye message and a hangup, in this order; it answers digit
    2 with the speak of the connecting message, a dial of the associate number
    with caller id and a ring timeout of 30, the goodbye speak and a hangup. *)
Theorem menu_digit_plays_or_dials :
  forall (to_string : Element -> string) (env : environ) (req : Request)
         (lang : string),
    lang = "english" \/ lang = "spanish" ->
    (form_get req "Digits" "" = "1" ->
     exists playing audio goodbye,
       message "playing_audio" lang = inr playing /\
       Py.getitem AUDIO_FILES lang = inr (Py.VStr audio) /\
       message "goodbye" lang = inr goodbye /\
       ivr_menu_handler to_string env req lang =
         inr (Response
                (to_string
                   (ResponseElement
                      [ SpeakElement playing (voice_of lang) (voice_lang_of lang);
                        PlayElement audio;
                        SpeakElement goodbye (voice_of lang) (voice_lang_of lang);
                        HangupElement ]))
                "text/xml")) /\
    (form_get req "Digits" "" = "2" ->
     exists connecting goodbye,
       message "connecting" lang = inr connecting /\
       message "goodbye" lang = inr goodbye /\
       ivr_menu_handler to_string env req lang =
         inr (Response
                (to_string
                   (ResponseElement
                      [ SpeakElement connecting (voice_of lang) (voice_lang_of lang);
                        DialElement (PLIVO_PHONE_NUMBER env) 30
                          [ NumberElement (ASSOCIATE_NUMBER env) ];
                        SpeakElement goodbye (voice_of lang) (voice_lang_of lang);
                        HangupElement ]))
                "text/xml")).
Proof.
  intros to_string env req lang Hlang.
  split; intros H; unfold ivr_menu_handler; rewrite H;
    destruct Hlang as [-> | ->];
    repeat eexists; reflexivity.
Qed.

Lemma menu_digit_plays_or_dials_witness :
  ("spanish" = "english" \/ "spanish" = "spanish") /\
  form_get (Sample.digits "/ivr/menu-handler/spanish" "2") "Digits" "" = "2" /\
  ivr_menu_handler Sample.render Sample.env
    (Sample.digits "/ivr/menu-handler/spanish" "2") "spanish" =
  inr (Response
         (Sample.render
            (ResponseElement
               [ SpeakElement
                   "Por favor espere mientras lo conectamos con un asociado."
                   "Polly.Conchita" "es-ES";
                 DialElement "+14692463990" 30 [ NumberElement "+918031274121" ];
                 SpeakElement "Gracias por llamar a InspireWorks. ¡Adiós!"
                   "Polly.Conchita" "es-ES";
                 HangupElement ]))
         "text/xml").
Proof.
  split; [now right |]. split; [reflexivity |].
  destruct (menu_digit_plays_or_dials Sample.render Sample.env
              (Sample.digits "/ivr/menu-handler/spanish" "2") "spanish"
              (or_intror eq_refl)) as [_ H].
  destruct (H eq_refl) as (connecting & goodbye & Hc & Hg & ->).
  vm_compute in Hc. vm_compute in Hg.
  injection Hc as <-. injection Hg as <-.
  reflexivity.
Defined.

(** ** Main-menu responder *)

(** C4: with a language other than english and spanish the main-menu
    responder returns what it returns for english, the same response byte
    for byte whatever the serialiser, and it is a response, not an
    exception: the english menu with its no-input fallback. *)
Theorem main_menu_unrecognized_language_is_english :
  forall (to_string : Element -> string) (env : environ) (req : Request)
         (lang : string),
    lang <> "english" ->
    lang <> "spanish" ->
    ivr_main_menu to_string env req lang =
      ivr_main_menu to_string env req "english" /\
    ivr_main_menu to_string env req lang =
      inr (Response
             (to_string
                (ResponseElement
                   [ GetDigitsElement
                       (Py.rstrip_slash (url_root req) ++ "/ivr/menu-handler/english")
                       "POST" 10 1 2 "12"
                       [ SpeakElement
                           ("You have selected English. " ++
                            "Press 1 to hear a short audio message. " ++
                            "Press 2 to speak with a live associate. ")
                           "Polly.Joanna" "en-US" ];
                     SpeakElement
                       ("We did not receive any input." ++ " " ++
                        "Thank you for calling InspireWorks. Goodbye!")
                       "Polly.Joanna" "en-US";
                     HangupElement ]))
             "text/xml").
Proof.
  intros to_string env req lang He Hs.
  assert (E : ivr_main_menu to_string env req lang =
              ivr_main_menu to_string env req "english").
  { rewrite <- (ivr_main_menu_validated to_string env req lang).
    now rewrite (validate_language_unrecognized lang He Hs). }
  split; [exact E |].
  rewrite E. reflexivity.
Qed.

Lemma main_menu_unrecognized_language_is_english_witness :
  "klingon" <> "english" /\
  "klingon" <> "spanish" /\
  ivr_main_menu Sample.render Sample.env (Sample.get "/ivr/main-menu/klingon") "klingon" =
  ivr_main_menu Sample.render Sample.env (Sample.get "/ivr/main-menu/klingon") "english".
Proof.
  assert (He : "klingon" <> "english") by discriminate.
  assert (Hs : "klingon" <> "spanish") by discriminate.
  split; [exact He |]. split; [exact Hs |].
  exact (proj1 (main_menu_unrecognized_language_is_english Sample.render Sample.env
                  (Sample.get "/ivr/main-menu/klingon") "klingon" He Hs)).
Defined.

(** C10: the audio catalog gives english and spanish one and the same URL,
    and on digit 1 the main-menu handler plays that URL whatever language it
    is called with. *)
Theorem audio_is_the_same_for_every_language :
  Py.getitem AUDIO_FILES "english" = Py.getitem AUDIO_FILES "spanish" /\
  Py.getitem AUDIO_FILES "english" =
    inr (Py.VStr "https://s3.amazonaws.com/plivocloud/Trumpet.mp3") /\
  forall (to_string : Element -> string) (env : environ) (req : Request)
         (lang : string),
    form_get req "Digits" "" = "1" ->
    exists before after,
      ivr_menu_handler to_string env req lang =
        inr (Response
               (to_string
                  (ResponseElement
                     [ before;
                       PlayElement "https://s3.amazonaws.com/plivocloud/Trumpet.mp3";
                       after;
                       HangupElement ]))
               "text/xml").
Proof.
  split; [reflexivity |]. split; [reflexivity |].
  intros to_string env req lang H.
  unfold ivr_menu_handler. rewrite H.
  destruct (validate_language_cases lang) as [-> | ->];
    eexists; eexists; reflexivity.
Qed.

Lemma audio_is_the_same_for_every_language_witness :
  form_get (Sample.digits "/ivr/menu-handler/spanish" "1") "Digits" "" = "1" /\
  exists before after,
    ivr_menu_handler Sample.render Sample.env
      (Sample.digits "/ivr/menu-handler/spanish" "1") "spanish" =
    inr (Response
           (Sample.render
              (ResponseElement
                 [ before;
                   PlayElement "https://s3.amazonaws.com/plivocloud/Trumpet.mp3";
                   after;
                   HangupElement ]))
           "text/xml").
Proof.
  split; [reflexivity |].
  exact (proj2 (proj2 audio_is_the_same_for_every_language) Sample.render Sample.env
           (Sample.digits "/ivr/menu-handler/spanish" "1") "spanish" eq_refl).
Defined.

(** ** Call originator *)

Section MakeCall.

Context {Client : Type}.
Variable RestClient : option string -> option string -> Py.result Client.
Variable calls_create : Client -> CallRequest -> Py.result CreateResponse.
Variables (env : environ) (req : Request).

(** The guard on the target number: a JSON object without the field, or with
    a falsy value in it, is answered before anything else happens. *)
Lemma make_call_guard (d : list (string * Py.value)) (v : Py.value) :
  get_json req = inr (Py.VDict d) ->
  Py.get (Py.VDict d) "target_number" = inr v ->
  Py.truthy v = false ->
  make_call RestClient calls_create env req =
    (failure "Target number is required" 400, []).
Proof.
  intros Hj Hg Ht.
  unfold make_call, make_call_try, and_then, pure.
  rewrite Hj, Hg, Ht. reflexivity.
Qed.

(** Past the guard with a string: the client is built, then one request is
    sent, and the [except] clauses see whatever either of them raises. *)
Lemma make_call_string (d : list (string * Py.value)) (s : string) :
  get_json req = inr (Py.VDict d) ->
  Py.assoc "target_number" d = Some (Py.VStr s) ->
  s <> "" ->
  make_call RestClient calls_create env req =
    match RestClient (PLIVO_AUTH_ID env) (PLIVO_AUTH_TOKEN env) with
    | inl e => (make_call_except e, [])
    | inr client =>
        let target := if Py.startswith s "+" then s else "+" ++ s in
        let r := {| from_ := PLIVO_PHONE_NUMBER env;
                    to_ := target;
                    answer_url :=
                      getenv_default env "BASE_URL" (Py.rstrip_slash (url_root req))
                        ++ "/ivr/welcome";
                    answer_method := "GET" |} in
        match calls_create client r with
        | inl e => (make_call_except e, [r])
        | inr response =>
            (jsonify [ ("success", Py.VBool true);
                       ("message", Py.VStr ("Call initiated to " ++ target));
                       ("call_uuid", Py.VStr (request_uuid response)) ],
             [r])
        end
    end.
Proof.
  intros Hj Ha Hs.
  apply String.eqb_neq in Hs.
  unfold make_call, make_call_try, and_then, pure, create.
  rewrite Hj. simpl. rewrite Ha. simpl. rewrite Hs. simpl.
  destruct (RestClient (PLIVO_AUTH_ID env) (PLIVO_AUTH_TOKEN env)) as [e | client];
    [reflexivity |].
  destruct (Py.startswith s "+"); simpl;
    match goal with
    | |- context [calls_create ?c ?r] => destruct (calls_create c r)
    end; reflexivity.
Qed.

(** No invocation sends more than one call-placement request. *)
Lemma make_call_sends_at_most_one :
  (length (snd (make_call RestClient calls_create env req)) <= 1)%nat.
Proof.
  unfold make_call, make_call_try, and_then, pure, create.
  destruct (get_json req) as [e | data]; simpl; [lia |].
  destruct (Py.get data "target_number") as [e | t]; simpl; [lia |].
  destruct (Py.truthy t); simpl; [| lia].
  destruct (Py.str_method t "startswith") as [e | s]; simpl; [lia |].
  destruct (RestClient (PLIVO_AUTH_ID env) (PLIVO_AUTH_TOKEN env)) as [e | c];
    simpl; [lia |].
  match goal with
  | |- context [calls_create ?c ?r] => destruct (calls_create c r)
  end; simpl; lia.
Qed.

(** The requests sent for a non-empty target string. *)
Lemma make_call_normalizes_destination_aux
    (d : list (string * Py.value)) (s : string) :
  get_json req = inr (Py.VDict d) ->
  Py.assoc "target_number" d = Some (Py.VStr s) ->
  s <> "" ->
  snd (make_call RestClient calls_create env req) =
    match RestClient (PLIVO_AUTH_ID env) (PLIVO_AUTH_TOKEN env) with
    | inl _ => []
    | inr _ =>
        [ {| from_ := PLIVO_PHONE_NUMBER env;
             to_ := if Py.startswith s "+" then s else "+" ++ s;
             answer_url :=
               getenv_default env "BASE_URL" (Py.rstrip_slash (url_root req))
                 ++ "/ivr/welcome";
             answer_method := "GET" |} ]
    end.
Proof.
  intros Hj Ha Hs.
  rewrite (make_call_string d s Hj Ha Hs).
  destruct (RestClient (PLIVO_AUTH_ID env) (PLIVO_AUTH_TOKEN env)) as [e | c];
    [reflexivity |].
  cbv zeta.
  match goal with
  | |- context [calls_create ?c ?r] => destruct (calls_create c r)
  end; reflexivity.
Qed.

End MakeCall.

(** C5: on a POST without a body the view answers 500, not 400.  Whether
    [get_json] returns [None] (the attribute lookup on it then fails) or
    raises the framework's own exception, the last [except] clause turns it
    into the 500 response carrying the text of the exception; nothing is sent
    to the provider. *)
Theorem make_call_empty_body_is_500 :
  forall (Client : Type)
         (RestClient : option string -> option string -> Py.result Client)
         (calls_create : Client -> CallRequest -> Py.result CreateResponse)
         (env : environ) (msg : string),
    make_call RestClient calls_create env (Sample.post_make_call (inr Py.VNone)) =
      (failure "'NoneType' object has no attribute 'get'" 500, []) /\
    make_call RestClient calls_create env
      (Sample.post_make_call (Py.raise Py.HTTPException msg)) =
      (failure msg 500, []) /\
    status (failure msg 500) <> 400%Z.
Proof.
  intros. repeat split. discriminate.
Qed.

(** C6: for a non-empty target string the view applies no check beyond the
    leading plus sign: once the client is built it sends one request whose
    destination is the string itself if it starts with a plus sign and the
    string with one plus sign in front otherwise; when the client cannot be
    built nothing is sent. *)
Theorem make_call_normalizes_destination :
  forall (Client : Type)
         (RestClient : option string -> option string -> Py.result Client)
         (calls_create : Client -> CallRequest -> Py.result CreateResponse)
         (env : environ) (req : Request)
         (d : list (string * Py.value)) (s : string),
    get_json req = inr (Py.VDict d) ->
    Py.assoc "target_number" d = Some (Py.VStr s) ->
    s <> "" ->
    snd (make_call RestClient calls_create env req) =
      match RestClient (PLIVO_AUTH_ID env) (PLIVO_AUTH_TOKEN env) with
      | inl _ => []
      | inr _ =>
          [ {| from_ := PLIVO_PHONE_NUMBER env;
               to_ := if Py.startswith s "+" then s else "+" ++ s;
               answer_url :=
                 getenv_default env "BASE_URL" (Py.rstrip_slash (url_root req))
                   ++ "/ivr/welcome";
               answer_method := "GET" |} ]
      end.
Proof.
  intros Client RestClient calls_create env req d s Hj Ha Hs.
  rewrite (make_call_string RestClient calls_create env req d s Hj Ha Hs).
  destruct (RestClient (PLIVO_AUTH_ID env) (PLIVO_AUTH_TOKEN env)) as [e | c];
    [reflexivity |].
  cbv zeta.
  match goal with
  | |- context [calls_create ?c ?r] => destruct (calls_create c r)
  end; reflexivity.
Qed.

Lemma make_call_normalizes_destination_witness :
  get_json (Sample.post_make_call
              (inr (Py.VDict [("target_number", Py.VStr "14155550100")]))) =
    inr (Py.VDict [("target_number", Py.VStr "14155550100")]) /\
  Py.assoc "target_number" [("target_number", Py.VStr "14155550100")] =
    Some (Py.VStr "14155550100") /\
  "14155550100" <> "" /\
  snd (make_call Sample.client_ok (Sample.answers "c0ffee") Sample.env
         (Sample.post_make_call
            (inr (Py.VDict [("target_number", Py.VStr "14155550100")])))) =
    [ {| from_ := "+14692463990";
         to_ := "+14155550100";
         answer_url := "https://ivr.example.org/ivr/welcome";
         answer_method := "GET" |} ].
Proof.
  assert (Hs : "14155550100" <> "") by discriminate.
  split; [reflexivity |]. split; [reflexivity |]. split; [exact Hs |].
  rewrite (make_call_normalizes_destination unit Sample.client_ok
             (Sample.answers "c0ffee") Sample.env
             (Sample.post_make_call
                (inr (Py.VDict [("target_number", Py.VStr "14155550100")])))
             [("target_number", Py.VStr "14155550100")] "14155550100"
             eq_refl eq_refl Hs).
  reflexivity.
Defined.

(** C9: a JSON object whose target_number is the empty string, null or any
    other falsy value is answered as one without the field: 400 with the
    message that the target number is required, and neither the client nor
    a call-placement request is reached. *)
Theorem make_call_falsy_target_is_missing :
  forall (Client : Type)
         (RestClient : option string -> option string -> Py.result Client)
         (calls_create : Client -> CallRequest -> Py.result CreateResponse)
         (env : environ) (req : Request)
         (d : list (string * Py.value)) (v : Py.value),
    get_json req = inr (Py.VDict d) ->
    Py.assoc "target_number" d = Some v ->
    Py.truthy v = false ->
    make_call RestClient calls_create env req =
      ({| status := 400;
          mimetype := "application/json";
          body := Json (Py.VDict [ ("success", Py.VBool false);
                                   ("error", Py.VStr "Target number is required") ]) |},
       []) /\
    make_call RestClient calls_create env req =
      make_call RestClient calls_create env
        {| method := method req; path := path req; url_root := url_root req;
           form := form req; get_json := inr (Py.VDict []) |}.
Proof.
  intros Client RestClient calls_create env req d v Hj Ha Ht.
  assert (E : make_call RestClient calls_create env req =
              (failure "Target number is required" 400, [])).
  { apply (make_call_guard RestClient calls_create env req d v Hj); [| exact Ht].
    simpl. now rewrite Ha. }
  split; [exact E |].
  rewrite E. reflexivity.
Qed.

Lemma make_call_falsy_target_is_missing_witness :
  get_json (Sample.post_make_call (inr (Py.VDict [("target_number", Py.VStr "")]))) =
    inr (Py.VDict [("target_number", Py.VStr "")]) /\
  Py.assoc "target_number" [("target_number", Py.VStr "")] = Some (Py.VStr "") /\
  Py.truthy (Py.VStr "") = false /\
  fst (make_call Sample.client_ok (Sample.answers "c0ffee") Sample.env
         (Sample.post_make_call (inr (Py.VDict [("target_number", Py.VStr "")])))) =
    failure "Target number is required" 400.
Proof.
  split; [reflexivity |]. split; [reflexivity |]. split; [reflexivity |].
  rewrite (proj1 (make_call_falsy_target_is_missing unit Sample.client_ok
                    (Sample.answers "c0ffee") Sample.env
                    (Sample.post_make_call
                       (inr (Py.VDict [("target_number", Py.VStr "")])))
                    [("target_number", Py.VStr "")] (Py.VStr "")
                    eq_refl eq_refl eq_refl)).
  reflexivity.
Defined.

(** C7, the claim as written: an invocation whose JSON object has no
    target_number sends no call-placement request at all, so the request is
    not attempted exactly once in every invocation. *)
Lemma make_call_without_target_sends_nothing :
  snd (make_call Sample.client_ok (Sample.answers "c0ffee") Sample.env
         (Sample.post_make_call (inr (Py.VDict [])))) = [] /\
  length (snd (make_call Sample.client_ok (Sample.answers "c0ffee") Sample.env
                 (Sample.post_make_call (inr (Py.VDict []))))) <> 1%nat.
Proof.
  split; [reflexivity |]. vm_compute. discriminate.
Qed.

(** C7, amended: no invocation sends more than one call-placement request;
    one whose JSON object has no target number, or a falsy one, sends none
    and is answered 400 with the message that the target number is
    required; one that carries a non-empty target string and gets its client
    built sends exactly one.  When the provider rejects that request with a
    validation error the answer is 400 with the JSON object of success false
    and the provider's message after the words Validation error; any other
    failure of the provider or of the network is answered 500 with the same
    object carrying the text of the exception.  The status tells the two
    apart, and neither answer is the one given for a missing target. *)
Theorem make_call_error_kinds :
  forall (Client : Type)
         (RestClient : option string -> option string -> Py.result Client)
         (calls_create : Client -> CallRequest -> Py.result CreateResponse)
         (env : environ) (req : Request),
    (length (snd (make_call RestClient calls_create env req)) <= 1)%nat /\
    (forall (d : list (string * Py.value)) (v : Py.value),
       get_json req = inr (Py.VDict d) ->
       Py.get (Py.VDict d) "target_number" = inr v ->
       Py.truthy v = false ->
       make_call RestClient calls_create env req =
         (failure "Target number is required" 400, [])) /\
    forall (d : list (string * Py.value)) (s : string) (client : Client),
      get_json req = inr (Py.VDict d) ->
      Py.assoc "target_number" d = Some (Py.VStr s) ->
      s <> "" ->
      RestClient (PLIVO_AUTH_ID env) (PLIVO_AUTH_TOKEN env) = inr client ->
      length (snd (make_call RestClient calls_create env req)) = 1%nat /\
      forall e : Py.exn,
        calls_create client
          {| from_ := PLIVO_PHONE_NUMBER env;
             to_ := if Py.startswith s "+" then s else "+" ++ s;
             answer_url :=
               getenv_default env "BASE_URL" (Py.rstrip_slash (url_root req))
                 ++ "/ivr/welcome";
             answer_method := "GET" |} = inl e ->
        (Py.class_of e = Py.ValidationError ->
         fst (make_call RestClient calls_create env req) =
           failure ("Validation error: " ++ Py.str e) 400) /\
        (Py.class_of e = Py.PlivoRestError ->
         fst (make_call RestClient calls_create env req) =
           failure ("Plivo API error: " ++ Py.str e) 500) /\
        (Py.is_PlivoRestError e = false ->
         fst (make_call RestClient calls_create env req) =
           failure (Py.str e) 500) /\
        (status (fst (make_call RestClient calls_create env req)) = 400%Z <->
         Py.class_of e = Py.ValidationError) /\
        (status (fst (make_call RestClient calls_create env req)) = 500%Z <->
         Py.class_of e <> Py.ValidationError) /\
        fst (make_call RestClient calls_create env req) <>
          failure "Target number is required" 400.
Proof.
  intros Client RestClient calls_create env req.
  split; [apply make_call_sends_at_most_one |].
  split; [intros d v; apply make_call_guard |].
  intros d s client Hj Ha Hs Hc.
  rewrite (make_call_string RestClient calls_create env req d s Hj Ha Hs).
  rewrite Hc. cbv zeta.
  split.
  - match goal with
    | |- context [calls_create ?c ?r] => destruct (calls_create c r)
    end; reflexivity.
  - intros e He. rewrite He.
    destruct e as [c msg]. unfold make_call_except, Py.is_ValidationError,
      Py.is_PlivoRestError. simpl.
    destruct c; simpl;
      (repeat split; try discriminate; try reflexivity; try congruence;
       try (intros H; apply (f_equal status) in H; discriminate H)).
Qed.

Lemma make_call_error_kinds_witness :
  "14155550100" <> "" /\
  Py.class_of (Py.Raise Py.ValidationError "to_ is not a valid number") =
    Py.ValidationError /\
  make_call Sample.client_ok
    (Sample.fails (Py.Raise Py.ValidationError "to_ is not a valid number"))
    Sample.env
    (Sample.post_make_call
       (inr (Py.VDict [("target_number", Py.VStr "14155550100")]))) =
  ({| status := 400;
      mimetype := "application/json";
      body := Json (Py.VDict
                [ ("success", Py.VBool false);
                  ("error", Py.VStr "Validation error: to_ is not a valid number") ]) |},
   [ {| from_ := "+14692463990";
        to_ := "+14155550100";
        answer_url := "https://ivr.example.org/ivr/welcome";
        answer_method := "GET" |} ]).
Proof.
  assert (Hs : "14155550100" <> "") by discriminate.
  split; [exact Hs |]. split; [reflexivity |].
  destruct (make_call_error_kinds unit Sample.client_ok
              (Sample.fails (Py.Raise Py.ValidationError "to_ is not a valid number"))
              Sample.env
              (Sample.post_make_call
                 (inr (Py.VDict [("target_number", Py.VStr "14155550100")]))))
    as [_ [_ H]].
  destruct (H [("target_number", Py.VStr "14155550100")] "14155550100" tt
              eq_refl eq_refl Hs eq_refl) as [_ He].
  destruct (He (Py.Raise Py.ValidationError "to_ is not a valid number") eq_refl)
    as [Hv _].
  pose proof (Hv eq_refl) as E.
  destruct (make_call Sample.client_ok
              (Sample.fails (Py.Raise Py.ValidationError "to_ is not a valid number"))
              Sample.env
              (Sample.post_make_call
                 (inr (Py.VDict [("target_number", Py.VStr "14155550100")]))))
    as [resp sent] eqn:Em.
  simpl in E. subst resp.
  vm_compute in Em. injection Em as <-.
  reflexivity.
Defined.

(** ** Health *)

(** C8: a GET of /health is routed to the health view and answered 200 with
    the JSON object of status healthy and the service name, whatever the
    environment holds, whatever else the request carries and however the
    SDK behaves; nothing is sent to the provider. *)
Theorem health_is_fixed :
  forall (Client : Type)
         (RestClient : option string -> option string -> Py.result Client)
         (calls_create : Client -> CallRequest -> Py.result CreateResponse)
         (to_string : Element -> string)
         (env : environ) (req : Request),
    method req = "GET" ->
    path req = "/health" ->
    dispatch_request RestClient calls_create to_string env req =
      Some (Served
              {| status := 200;
                 mimetype := "application/json";
                 body := Json (Py.VDict
                           [ ("status", Py.VStr "healthy");
                             ("service", Py.VStr "InspireWorks IVR Demo") ]) |}
              []) /\
    health_check env req =
      {| status := 200;
         mimetype := "application/json";
         body := Json (Py.VDict
                   [ ("status", Py.VStr "healthy");
                     ("service", Py.VStr "InspireWorks IVR Demo") ]) |}.
Proof.
  intros Client RestClient calls_create to_string env req Hm Hp.
  split; [| reflexivity].
  unfold dispatch_request.
  assert (E : match_request req url_map = Some ("health_check", [])).
  { unfold url_map. simpl. unfold match_rule. rewrite Hp, Hm. reflexivity. }
  rewrite E. reflexivity.
Qed.

Lemma health_is_fixed_witness :
  method (Sample.get "/health") = "GET" /\
  path (Sample.get "/health") = "/health" /\
  dispatch_request Sample.client_unauthenticated
    (Sample.fails (Py.Raise Py.OtherException "connection refused"))
    Sample.render [] (Sample.get "/health") =
  Some (Served (health_check Sample.env (Sample.get "/health")) []).
Proof.
  split; [reflexivity |]. split; [reflexivity |].
  rewrite (proj1 (health_is_fixed unit Sample.client_unauthenticated
                    (Sample.fails (Py.Raise Py.OtherException "connection refused"))
                    Sample.render [] (Sample.get "/health") eq_refl eq_refl)).
  reflexivity.
Defined.


(** * Further properties of the views *)

(** ** Call originator *)

(** X1: with a non-empty target string, a client that builds and a provider
    that accepts, the answer is 200 with success true, the message naming the
    normalized destination and the provider's request identifier, after the
    one request has been sent. *)
Theorem make_call_success :
  forall (Client : Type)
         (RestClient : option string -> option string -> Py.result Client)
         (calls_create : Client -> CallRequest -> Py.result CreateResponse)
         (env : environ) (req : Request)
         (d : list (string * Py.value)) (s : string) (client : Client)
         (response : CreateResponse),
    get_json req = inr (Py.VDict d) ->
    Py.assoc "target_number" d = Some (Py.VStr s) ->
    s <> "" ->
    RestClient (PLIVO_AUTH_ID env) (PLIVO_AUTH_TOKEN env) = inr client ->
    calls_create client
      {| from_ := PLIVO_PHONE_NUMBER env;
         to_ := if Py.startswith s "+" then s else "+" ++ s;
         answer_url :=
           getenv_default env "BASE_URL" (Py.rstrip_slash (url_root req))
             ++ "/ivr/welcome";
         answer_method := "GET" |} = inr response ->
    make_call RestClient calls_create env req =
      ({| status := 200;
          mimetype := "application/json";
          body := Json (Py.VDict
                    [ ("success", Py.VBool true);
                      ("message",
                       Py.VStr ("Call initiated to " ++
                                if Py.startswith s "+" then s else "+" ++ s));
                      ("call_uuid", Py.VStr (request_uuid response)) ]) |},
       [ {| from_ := PLIVO_PHONE_NUMBER env;
            to_ := if Py.startswith s "+" then s else "+" ++ s;
            answer_url :=
              getenv_default env "BASE_URL" (Py.rstrip_slash (url_root req))
                ++ "/ivr/welcome";
            answer_method := "GET" |} ]).
Proof.
  intros Client RestClient calls_create env req d s client response
    Hj Ha Hs Hc Hr.
  rewrite (make_call_string RestClient calls_create env req d s Hj Ha Hs).
  rewrite Hc. cbv zeta. rewrite Hr. reflexivity.
Qed.

Lemma make_call_success_witness :
  "+14155550100" <> "" /\
  make_call Sample.client_ok (Sample.answers "c0ffee") []
    (Sample.post_make_call
       (inr (Py.VDict [("target_number", Py.VStr "+14155550100")]))) =
  ({| status := 200;
      mimetype := "application/json";
      body := Json (Py.VDict
                [ ("success", Py.VBool true);
                  ("message", Py.VStr "Call initiated to +14155550100");
                  ("call_uuid", Py.VStr "c0ffee") ]) |},
   [ {| from_ := "+14692463990";
        to_ := "+14155550100";
        answer_url := "http://localhost:5000/ivr/welcome";
        answer_method := "GET" |} ]).
Proof.
  assert (Hs : "+14155550100" <> "") by discriminate.
  split; [exact Hs |].
  rewrite (make_call_success unit Sample.client_ok (Sample.answers "c0ffee") []
             (Sample.post_make_call
                (inr (Py.VDict [("target_number", Py.VStr "+14155550100")])))
             [("target_number", Py.VStr "+14155550100")] "+14155550100" tt
             {| request_uuid := "c0ffee" |} eq_refl eq_refl Hs eq_refl eq_refl).
  reflexivity.
Defined.

(** X2: when the client cannot be built (the SDK refuses the credentials)
    no request is sent, and the exception goes through the same three
    clauses as a failure of the request itself: 400 for a validation error,
    500 with the words Plivo API error for any other Plivo error, 500 with
    the bare text otherwise. *)
Theorem make_call_client_failure :
  forall (Client : Type)
         (RestClient : option string -> option string -> Py.result Client)
         (calls_create : Client -> CallRequest -> Py.result CreateResponse)
         (env : environ) (req : Request)
         (d : list (string * Py.value)) (s : string) (e : Py.exn),
    get_json req = inr (Py.VDict d) ->
    Py.assoc "target_number" d = Some (Py.VStr s) ->
    s <> "" ->
    RestClient (PLIVO_AUTH_ID env) (PLIVO_AUTH_TOKEN env) = inl e ->
    make_call RestClient calls_create env req =
      (match Py.class_of e with
       | Py.ValidationError => failure ("Validation error: " ++ Py.str e) 400
       | Py.PlivoRestError => failure ("Plivo API error: " ++ Py.str e) 500
       | _ => failure (Py.str e) 500
       end, []).
Proof.
  intros Client RestClient calls_create env req d s e Hj Ha Hs Hc.
  rewrite (make_call_string RestClient calls_create env req d s Hj Ha Hs).
  rewrite Hc. destruct e as [c msg]. destruct c; reflexivity.
Qed.

Lemma make_call_client_failure_witness :
  "14155550100" <> "" /\
  make_call Sample.client_unauthenticated (Sample.answers "c0ffee") []
    (Sample.post_make_call
       (inr (Py.VDict [("target_number", Py.VStr "14155550100")]))) =
  (failure "Plivo API error: could not find your auth credentials" 500, []).
Proof.
  assert (Hs : "14155550100" <> "") by discriminate.
  split; [exact Hs |].
  rewrite (make_call_client_failure unit Sample.client_unauthenticated
             (Sample.answers "c0ffee") []
             (Sample.post_make_call
                (inr (Py.VDict [("target_number", Py.VStr "14155550100")])))
             [("target_number", Py.VStr "14155550100")] "14155550100"
             (Py.Raise Py.PlivoRestError "could not find your auth credentials")
             eq_refl eq_refl Hs eq_refl).
  reflexivity.
Defined.

(** X3: a target number that is truthy but not a string (a JSON number,
    true, a non-empty array or object) passes the guard and fails at
    [startswith]: the answer is 500 with the text of the attribute error, and
    nothing is sent. *)
Theorem make_call_target_not_a_string :
  forall (Client : Type)
         (RestClient : option string -> option string -> Py.result Client)
         (calls_create : Client -> CallRequest -> Py.result CreateResponse)
         (env : environ) (req : Request)
         (d : list (string * Py.value)) (v : Py.value),
    get_json req = inr (Py.VDict d) ->
    Py.assoc "target_number" d = Some v ->
    Py.truthy v = true ->
    (forall s, v <> Py.VStr s) ->
    make_call RestClient calls_create env req =
      (failure ("'" ++ Py.type_name v ++ "' object has no attribute 'startswith'") 500,
       []).
Proof.
  intros Client RestClient calls_create env req d v Hj Ha Ht Hv.
  unfold make_call, make_call_try, and_then, pure.
  rewrite Hj. simpl. rewrite Ha. simpl. rewrite Ht. simpl.
  destruct v; try reflexivity.
  now destruct (Hv s).
Qed.

Lemma make_call_target_not_a_string_witness :
  Py.truthy (Py.VInt 14155550100) = true /\
  (forall s, Py.VInt 14155550100 <> Py.VStr s) /\
  make_call Sample.client_ok (Sample.answers "c0ffee") Sample.env
    (Sample.post_make_call
       (inr (Py.VDict [("target_number", Py.VInt 14155550100)]))) =
  (failure "'int' object has no attribute 'startswith'" 500, []).
Proof.
  assert (Hv : forall s, Py.VInt 14155550100 <> Py.VStr s) by (intros s; discriminate).
  split; [reflexivity |]. split; [exact Hv |].
  rewrite (make_call_target_not_a_string unit Sample.client_ok
             (Sample.answers "c0ffee") Sample.env
             (Sample.post_make_call
                (inr (Py.VDict [("target_number", Py.VInt 14155550100)])))
             [("target_number", Py.VInt 14155550100)] (Py.VInt 14155550100)
             eq_refl eq_refl eq_refl Hv).
  reflexivity.
Defined.

(** X4: a JSON body that is not an object (an array, a string, a number, a
    boolean, null) fails at [data.get]: the answer is 500 with the text of
    the attribute error, and nothing is sent. *)
Theorem make_call_body_not_an_object :
  forall (Client : Type)
         (RestClient : option string -> option string -> Py.result Client)
         (calls_create : Client -> CallRequest -> Py.result CreateResponse)
         (env : environ) (req : Request) (v : Py.value),
    get_json req = inr v ->
    (forall d, v <> Py.VDict d) ->
    make_call RestClient calls_create env req =
      (failure ("'" ++ Py.type_name v ++ "' object has no attribute 'get'") 500, []).
Proof.
  intros Client RestClient calls_create env req v Hj Hv.
  unfold make_call, make_call_try, and_then, pure.
  rewrite Hj. simpl.
  destruct v; try reflexivity.
  now destruct (Hv d).
Qed.

Lemma make_call_body_not_an_object_witness :
  (forall d, Py.VList [Py.VStr "+14155550100"] <> Py.VDict d) /\
  make_call Sample.client_ok (Sample.answers "c0ffee") Sample.env
    (Sample.post_make_call (inr (Py.VList [Py.VStr "+14155550100"]))) =
  (failure "'list' object has no attribute 'get'" 500, []).
Proof.
  assert (Hv : forall d, Py.VList [Py.VStr "+14155550100"] <> Py.VDict d)
    by (intros d; discriminate).
  split; [exact Hv |].
  rewrite (make_call_body_not_an_object unit Sample.client_ok
             (Sample.answers "c0ffee") Sample.env
             (Sample.post_make_call (inr (Py.VList [Py.VStr "+14155550100"])))
             (Py.VList [Py.VStr "+14155550100"]) eq_refl Hv).
  reflexivity.
Defined.

Lemma make_call_except_shape (e : Py.exn) :
  exists (m : string) (code : Z),
    make_call_except e = failure m code /\ (code = 400%Z \/ code = 500%Z).
Proof.
  unfold make_call_except.
  destruct (Py.is_ValidationError e); [| destruct (Py.is_PlivoRestError e)];
    eexists; eexists; (split; [reflexivity |]); auto.
Qed.

(** X5: whatever the request holds and whatever the SDK does, the view
    answers with a JSON object and one of three statuses.  Status 200 comes
    with success true, a message and the call identifier, after exactly one
    request was sent; statuses 400 and 500 come with success false and an
    error text, after at most one request. *)
Theorem make_call_always_structured :
  forall (Client : Type)
         (RestClient : option string -> option string -> Py.result Client)
         (calls_create : Client -> CallRequest -> Py.result CreateResponse)
         (env : environ) (req : Request),
    mimetype (fst (make_call RestClient calls_create env req)) = "application/json" /\
    ((status (fst (make_call RestClient calls_create env req)) = 200%Z /\
      length (snd (make_call RestClient calls_create env req)) = 1%nat /\
      exists m u,
        body (fst (make_call RestClient calls_create env req)) =
          Json (Py.VDict [ ("success", Py.VBool true);
                           ("message", Py.VStr m);
                           ("call_uuid", Py.VStr u) ]))
     \/
     ((status (fst (make_call RestClient calls_create env req)) = 400%Z \/
       status (fst (make_call RestClient calls_create env req)) = 500%Z) /\
      (length (snd (make_call RestClient calls_create env req)) <= 1)%nat /\
      exists m,
        body (fst (make_call RestClient calls_create env req)) =
          Json (Py.VDict [ ("success", Py.VBool false);
                           ("error", Py.VStr m) ]))).
Proof.
  intros Client RestClient calls_create env req.
  assert (F : forall e,
            mimetype (make_call_except e) = "application/json" /\
            (status (make_call_except e) = 400%Z \/
             status (make_call_except e) = 500%Z) /\
            exists m, body (make_call_except e) =
              Json (Py.VDict [ ("success", Py.VBool false);
                               ("error", Py.VStr m) ])).
  { intros e.
    destruct (make_call_except_shape e) as (m & code & -> & Hc).
    split; [reflexivity |]. split; [exact Hc |]. now exists m. }
  assert (G : forall e (sent : list CallRequest), (length sent <= 1)%nat ->
            mimetype (fst (make_call_except e, sent)) = "application/json" /\
            ((status (fst (make_call_except e, sent)) = 200%Z /\
              length (snd (make_call_except e, sent)) = 1%nat /\
              exists m u,
                body (fst (make_call_except e, sent)) =
                  Json (Py.VDict [ ("success", Py.VBool true);
                                   ("message", Py.VStr m);
                                   ("call_uuid", Py.VStr u) ]))
             \/
             ((status (fst (make_call_except e, sent)) = 400%Z \/
               status (fst (make_call_except e, sent)) = 500%Z) /\
              (length (snd (make_call_except e, sent)) <= 1)%nat /\
              exists m,
                body (fst (make_call_except e, sent)) =
                  Json (Py.VDict [ ("success", Py.VBool false);
                                   ("error", Py.VStr m) ])))).
  { intros e sent Hl. destruct (F e) as (Hm & Hs & Hb).
    split; [exact Hm |]. right. split; [exact Hs |]. split; [exact Hl | exact Hb]. }
  unfold make_call, make_call_try, and_then, pure, create.
  destruct (get_json req) as [e | data]; [apply G; simpl; lia |].
  cbv beta iota.
  destruct (Py.get data "target_number") as [e | t]; [apply G; simpl; lia |].
  cbv beta iota.
  destruct (Py.truthy t); cbv beta iota; simpl negb; cbv iota.
  2:{ split; [reflexivity |]. right. split; [now left |].
      split; [simpl; lia |]. now eexists. }
  destruct (Py.str_method t "startswith") as [e | s]; [apply G; simpl; lia |].
  cbv beta iota.
  destruct (RestClient (PLIVO_AUTH_ID env) (PLIVO_AUTH_TOKEN env)) as [e | c];
    [apply G; simpl; lia |].
  cbv beta iota.
  match goal with
  | |- context [calls_create ?c ?r] => destruct (calls_create c r) as [e | response]
  end; [apply G; simpl; lia |].
  split; [reflexivity |]. left. split; [reflexivity |].
  split; [reflexivity |]. now eexists; eexists.
Qed.

(** ** Routes *)

Lemma split_slash_no_slash (s : string) :
  no_slash s = true -> split_slash s = [s].
Proof.
  induction s as [| c s IH]; simpl; [reflexivity |].
  intros H. apply andb_prop in H as [Hc Hs].
  rewrite (IH Hs). apply negb_true_iff in Hc. now rewrite Hc.
Qed.

Ltac route_by Hm Hp :=
  unfold url_map; simpl; unfold match_rule; rewrite Hp, Hm; simpl.

Lemma routes_welcome : routes_to "GET" "/ivr/welcome" "ivr_welcome" [].
Proof. intros req' Hm Hp. route_by Hm Hp. reflexivity. Qed.

Lemma routes_language_handler :
  routes_to "POST" "/ivr/language-handler" "ivr_language_handler" [].
Proof. intros req' Hm Hp. route_by Hm Hp. reflexivity. Qed.

Lemma routes_main_menu (m l : string) :
  m = "GET" \/ m = "POST" ->
  no_slash l = true -> l <> "" ->
  routes_to m ("/ivr/main-menu/" ++ l) "ivr_main_menu" [("lang", l)].
Proof.
  intros Hmeth Hl Hne req' Hm Hp. apply String.eqb_neq in Hne.
  destruct Hmeth as [-> | ->]; route_by Hm Hp;
    rewrite (split_slash_no_slash l Hl); simpl; rewrite Hne; reflexivity.
Qed.

Lemma routes_menu_handler (l : string) :
  no_slash l = true -> l <> "" ->
  routes_to "POST" ("/ivr/menu-handler/" ++ l) "ivr_menu_handler" [("lang", l)].
Proof.
  intros Hl Hne req' Hm Hp. apply String.eqb_neq in Hne.
  route_by Hm Hp.
  rewrite (split_slash_no_slash l Hl); simpl; rewrite Hne; reflexivity.
Qed.

Lemma validated_is_a_segment (lang : string) :
  no_slash (validate_language lang) = true /\ validate_language lang <> "".
Proof.
  destruct (validate_language_cases lang) as [-> | ->];
    (split; [reflexivity | discriminate]).
Qed.

(** X6: the callback URL handed to the provider.  With BASE_URL set it is
    that text, taken as it is, followed by /ivr/welcome, whatever the
    request; without it, it is the URL root of the request, stripped of its
    final slashes, followed by /ivr/welcome.  Its method is GET, under which
    the path /ivr/welcome reaches the welcome view. *)
Theorem make_call_answer_url :
  forall (Client : Type)
         (RestClient : option string -> option string -> Py.result Client)
         (calls_create : Client -> CallRequest -> Py.result CreateResponse)
         (env : environ) (req : Request)
         (d : list (string * Py.value)) (s : string) (client : Client),
    get_json req = inr (Py.VDict d) ->
    Py.assoc "target_number" d = Some (Py.VStr s) ->
    s <> "" ->
    RestClient (PLIVO_AUTH_ID env) (PLIVO_AUTH_TOKEN env) = inr client ->
    exists r : CallRequest,
      snd (make_call RestClient calls_create env req) = [r] /\
      answer_method r = "GET" /\
      (forall b, getenv env "BASE_URL" = Some b ->
                 answer_url r = b ++ "/ivr/welcome") /\
      (getenv env "BASE_URL" = None ->
       answer_url r = Py.rstrip_slash (url_root req) ++ "/ivr/welcome") /\
      routes_to (answer_method r) "/ivr/welcome" "ivr_welcome" [].
Proof.
  intros Client RestClient calls_create env req d s client Hj Ha Hs Hc.
  eexists. split.
  - rewrite (make_call_normalizes_destination_aux RestClient calls_create env req
               d s Hj Ha Hs).
    rewrite Hc. reflexivity.
  - simpl. split; [reflexivity |]. unfold getenv_default.
    split; [| split].
    + intros b Hb. now rewrite Hb.
    + intros Hb. now rewrite Hb.
    + exact routes_welcome.
Qed.

Lemma make_call_answer_url_witness :
  "14155550100" <> "" /\
  exists r : CallRequest,
    snd (make_call Sample.client_ok (Sample.answers "c0ffee") Sample.env
           (Sample.post_make_call
              (inr (Py.VDict [("target_number", Py.VStr "14155550100")])))) = [r] /\
    answer_method r = "GET" /\
    answer_url r = "https://ivr.example.org/ivr/welcome".
Proof.
  assert (Hs : "14155550100" <> "") by discriminate.
  split; [exact Hs |].
  destruct (make_call_answer_url unit Sample.client_ok (Sample.answers "c0ffee")
              Sample.env
              (Sample.post_make_call
                 (inr (Py.VDict [("target_number", Py.VStr "14155550100")])))
              [("target_number", Py.VStr "14155550100")] "14155550100" tt
              eq_refl eq_refl Hs eq_refl) as (r & Hr & Hm & Hb & _).
  exists r. split; [exact Hr |]. split; [exact Hm |].
  exact (Hb "https://ivr.example.org" eq_refl).
Defined.

(** ** Documents *)

Ltac serve :=
  match goal with
  | req : Request |- _ =>
      first
        [ exists (Py.rstrip_slash (url_root req)), "/ivr/welcome", "ivr_welcome", (@nil (string * string));
          split; [reflexivity | exact routes_welcome]
        | exists (Py.rstrip_slash (url_root req)), "/ivr/language-handler", "ivr_language_handler", (@nil (string * string));
          split; [reflexivity | exact routes_language_handler]
        | exists (Py.rstrip_slash (url_root req)), "/ivr/main-menu/english", "ivr_main_menu", [("lang", "english")];
          split; [reflexivity
                 | apply (routes_main_menu "GET" "english");
                   [now left | reflexivity | discriminate]]
        | exists (Py.rstrip_slash (url_root req)), "/ivr/main-menu/spanish", "ivr_main_menu", [("lang", "spanish")];
          split; [reflexivity
                 | apply (routes_main_menu "GET" "spanish");
                   [now left | reflexivity | discriminate]]
        | exists (Py.rstrip_slash (url_root req)), "/ivr/menu-handler/english", "ivr_menu_handler", [("lang", "english")];
          split; [reflexivity
                 | apply (routes_menu_handler "english"); [reflexivity | discriminate]]
        | exists (Py.rstrip_slash (url_root req)), "/ivr/menu-handler/spanish", "ivr_menu_handler", [("lang", "spanish")];
          split; [reflexivity
                 | apply (routes_menu_handler "spanish"); [reflexivity | discriminate]] ]
  end.

Ltac document :=
  eexists; split;
  [ intros ts; reflexivity
  | split; [reflexivity |];
    split; [repeat (constructor; try serve) | repeat constructor] ].

Lemma ivr_welcome_document (env : environ) (req : Request) :
  exists doc,
    document_of (fun ts => ivr_welcome ts env req) doc /\
    ends_call_or_redirects doc = true /\
    Forall served (links doc) /\
    Forall (eq ("Polly.Joanna", "en-US")) (voices doc).
Proof. unfold document_of, ivr_welcome. document. Qed.

Lemma ivr_language_handler_document (env : environ) (req : Request) :
  exists doc,
    document_of (fun ts => ivr_language_handler ts env req) doc /\
    ends_call_or_redirects doc = true /\
    Forall served (links doc) /\
    Forall (eq ("Polly.Joanna", "en-US")) (voices doc).
Proof.
  unfold document_of, ivr_language_handler.
  destruct (String.eqb (form_get req "Digits" "") "1");
    [| destruct (String.eqb (form_get req "Digits" "") "2")]; document.
Qed.

Lemma ivr_main_menu_document (env : environ) (req : Request) (lang : string) :
  exists doc,
    document_of (fun ts => ivr_main_menu ts env req lang) doc /\
    ends_call_or_redirects doc = true /\
    Forall served (links doc) /\
    Forall (eq (voice_of (validate_language lang),
                voice_lang_of (validate_language lang))) (voices doc).
Proof.
  unfold document_of, ivr_main_menu.
  destruct (validate_language_cases lang) as [-> | ->]; document.
Qed.

Lemma ivr_menu_handler_document (env : environ) (req : Request) (lang : string) :
  exists doc,
    document_of (fun ts => ivr_menu_handler ts env req lang) doc /\
    ends_call_or_redirects doc = true /\
    Forall served (links doc) /\
    Forall (eq (voice_of (validate_language lang),
                voice_lang_of (validate_language lang))) (voices doc).
Proof.
  unfold document_of, ivr_menu_handler.
  destruct (validate_language_cases lang) as [-> | ->];
    (destruct (String.eqb (form_get req "Digits" "") "1");
     [| destruct (String.eqb (form_get req "Digits" "") "2")]); document.
Qed.


(** X9: every document ends by hanging up or by redirecting the call, and
    all its speaks use one voice and locale: Joanna and en-US at language
    selection, the pair of the validated language at the main menu. *)
Theorem every_document_ends_the_call_or_redirects :
  forall (env : environ) (req : Request) (lang : string),
    (exists doc,
       document_of (fun ts => ivr_welcome ts env req) doc /\
       ends_call_or_redirects doc = true /\
       Forall (eq ("Polly.Joanna", "en-US")) (voices doc)) /\
    (exists doc,
       document_of (fun ts => ivr_language_handler ts env req) doc /\
       ends_call_or_redirects doc = true /\
       Forall (eq ("Polly.Joanna", "en-US")) (voices doc)) /\
    (exists doc,
       document_of (fun ts => ivr_main_menu ts env req lang) doc /\
       ends_call_or_redirects doc = true /\
       Forall (eq (voice_of (validate_language lang),
                   voice_lang_of (validate_language lang))) (voices doc)) /\
    (exists doc,
       document_of (fun ts => ivr_menu_handler ts env req lang) doc /\
       ends_call_or_redirects doc = true /\
       Forall (eq (voice_of (validate_language lang),
                   voice_lang_of (validate_language lang))) (voices doc)).
Proof.
  intros env req lang.
  destruct (ivr_welcome_document env req) as (d1 & H1 & E1 & _ & V1).
  destruct (ivr_language_handler_document env req) as (d2 & H2 & E2 & _ & V2).
  destruct (ivr_main_menu_document env req lang) as (d3 & H3 & E3 & _ & V3).
  destruct (ivr_menu_handler_document env req lang) as (d4 & H4 & E4 & _ & V4).
  repeat split; eexists; (split; [eassumption |]); split; assumption.
Qed.

(** X10: the welcome view returns, for every request, the digit collection
    that posts one digit out of 1 and 2 to the language handler (10 seconds,
    2 retries) around the bilingual prompt, followed by the no-input
    farewell and a hangup. *)
Theorem welcome_document :
  forall (to_string : Element -> string) (env : environ) (req : Request),
    ivr_welcome to_string env req =
      inr (Response
             (to_string
                (ResponseElement
                   [ GetDigitsElement
                       (Py.rstrip_slash (url_root req) ++ "/ivr/language-handler")
                       "POST" 10 1 2 "12"
                       [ SpeakElement
                           ("Welcome to InspireWorks. " ++
                            "Press 1 for English. " ++
                            "Para Español, oprima 2. ")
                           "Polly.Joanna" "en-US" ];
                     SpeakElement
                       ("We did not receive any input." ++ " " ++
                        "Thank you for calling InspireWorks. Goodbye!")
                       "Polly.Joanna" "en-US";
                     HangupElement ]))
             "text/xml").
Proof. intros. reflexivity. Qed.

(** X11: the main-menu handler treats a language other than english and
    spanish as english, whatever the digit. *)
Theorem menu_handler_unrecognized_language_is_english :
  forall (to_string : Element -> string) (env : environ) (req : Request)
         (lang : string),
    lang <> "english" ->
    lang <> "spanish" ->
    ivr_menu_handler to_string env req lang =
      ivr_menu_handler to_string env req "english".
Proof.
  intros to_string env req lang He Hs.
  unfold ivr_menu_handler.
  now rewrite (validate_language_unrecognized lang He Hs).
Qed.

Lemma menu_handler_unrecognized_language_is_english_witness :
  "deutsch" <> "english" /\
  "deutsch" <> "spanish" /\
  ivr_menu_handler Sample.render Sample.env
    (Sample.digits "/ivr/menu-handler/deutsch" "2") "deutsch" =
  ivr_menu_handler Sample.render Sample.env
    (Sample.digits "/ivr/menu-handler/deutsch" "2") "english".
Proof.
  assert (He : "deutsch" <> "english") by discriminate.
  assert (Hs : "deutsch" <> "spanish") by discriminate.
  split; [exact He |]. split; [exact Hs |].
  exact (menu_handler_unrecognized_language_is_english Sample.render Sample.env
           (Sample.digits "/ivr/menu-handler/deutsch" "2") "deutsch" He Hs).
Defined.

(** X13: the main menu of any language posts its digit to the menu handler
    of the validated language, speaks the menu and the no-input farewell of
    that language, and hangs up; the posted digit reaches the handler with
    that same language. *)
Theorem main_menu_document :
  forall (to_string : Element -> string) (env : environ) (req : Request)
         (lang : string),
    exists prompt no_input goodbye,
      message "main_menu" (validate_language lang) = inr prompt /\
      message "no_input" (validate_language lang) = inr no_input /\
      message "goodbye" (validate_language lang) = inr goodbye /\
      ivr_main_menu to_string env req lang =
        inr (Response
               (to_string
                  (ResponseElement
                     [ GetDigitsElement
                         (Py.rstrip_slash (url_root req) ++ "/ivr/menu-handler/"
                            ++ validate_language lang)
                         "POST" 10 1 2 "12"
                         [ SpeakElement prompt
                             (voice_of (validate_language lang))
                             (voice_lang_of (validate_language lang)) ];
                       SpeakElement (no_input ++ " " ++ goodbye)
                         (voice_of (validate_language lang))
                         (voice_lang_of (validate_language lang));
                       HangupElement ]))
               "text/xml") /\
      routes_to "POST" ("/ivr/menu-handler/" ++ validate_language lang)
        "ivr_menu_handler" [("lang", validate_language lang)].
Proof.
  intros to_string env req lang.
  unfold ivr_main_menu.
  destruct (validated_is_a_segment lang) as [Hn He].
  pose proof (routes_menu_handler (validate_language lang) Hn He) as R.
  destruct (validate_language_cases lang) as [E | E]; rewrite E in *;
    (eexists; eexists; eexists;
     split; [reflexivity |]; split; [reflexivity |]; split; [reflexivity |];
     split; [reflexivity | exact R]).
Qed.

(** ** The application as a whole *)

Lemma match_request_sound (req : Request) (rules : list rule)
    (name : string) (args : list (string * string)) :
  match_request req rules = Some (name, args) ->
  exists r, In r rules /\ endpoint r = name /\
            Py.mem (method req) (rule_methods r) = true.
Proof.
  induction rules as [| r rules IH]; simpl; [discriminate |].
  destruct (match_rule req r) as [m |] eqn:Hr.
  - intros H. injection H as ->. exists r. split; [now left |].
    unfold match_rule in Hr.
    destruct (split_slash (path req)) as [| w pieces]; [discriminate |].
    destruct w; [| discriminate].
    destruct (Py.mem (method req) (rule_methods r)); [| discriminate].
    destruct (match_pattern (pattern r) pieces); [| discriminate].
    simpl in Hr. injection Hr as <- _. now split.
  - intros H. destruct (IH H) as (r' & Hin & He & Hm).
    exists r'. split; [now right | now split].
Qed.

Lemma mem_one (m x : string) : Py.mem m [x] = true -> m = x.
Proof.
  unfold Py.mem. simpl. rewrite orb_false_r. apply String.eqb_eq.
Qed.

Lemma mem_two (m x y : string) : Py.mem m [x; y] = true -> m = x \/ m = y.
Proof.
  unfold Py.mem. simpl. rewrite orb_false_r. intros H.
  apply orb_prop in H as [H | H]; apply String.eqb_eq in H; auto.
Qed.

Lemma mem_three (m x y z : string) :
  Py.mem m [x; y; z] = true -> m = x \/ m = y \/ m = z.
Proof.
  unfold Py.mem. simpl. rewrite orb_false_r. intros H.
  apply orb_prop in H as [H | H]; [left; now apply String.eqb_eq |].
  apply orb_prop in H as [H | H]; apply String.eqb_eq in H; auto.
Qed.

(** X12: a view is entered only under a method its rule takes: the call
    originator and the two digit handlers only on POST, never on GET or
    HEAD; the index and health views only on GET or on the HEAD the router
    adds to a rule that lists GET; the two responders only on GET, HEAD or
    POST. *)
Theorem views_only_under_listed_methods :
  forall (req : Request) (name : string) (args : list (string * string)),
    match_request req url_map = Some (name, args) ->
    (name = "make_call" \/ name = "ivr_language_handler" \/
     name = "ivr_menu_handler" -> method req = "POST") /\
    (name = "index" \/ name = "health_check" ->
     method req = "HEAD" \/ method req = "GET") /\
    (name = "ivr_welcome" \/ name = "ivr_main_menu" ->
     method req = "HEAD" \/ method req = "GET" \/ method req = "POST").
Proof.
  intros req name args H.
  destruct (match_request_sound req url_map name args H) as (r & Hin & He & Hm).
  simpl in Hin.
  repeat (destruct Hin as [<- | Hin]); try contradiction;
    simpl in He; subst name; cbv [rule_methods methods Py.mem existsb] in Hm;
    simpl in Hm;
    first [apply mem_one in Hm | apply mem_two in Hm | apply mem_three in Hm];
    (split; [| split]); intros Hn;
    try exact Hm;
    repeat (destruct Hn as [Hn | Hn]); discriminate Hn.
Qed.

Lemma views_only_under_listed_methods_witness :
  match_request (Sample.post_make_call (inr Py.VNone)) url_map =
    Some ("make_call", []) /\
  method (Sample.post_make_call (inr Py.VNone)) = "POST".
Proof.
  split; [reflexivity |].
  exact (proj1 (views_only_under_listed_methods
                  (Sample.post_make_call (inr Py.VNone)) "make_call" []
                  eq_refl) (or_introl eq_refl)).
Defined.

(** X14: any non-empty language segment is served by the main menu, under
    GET or POST, with the answer of the validated language, so that a bad
    tag in the URL never fails the call; an empty segment matches no
    route. *)
Theorem language_segment_is_served :
  forall (Client : Type)
         (RestClient : option string -> option string -> Py.result Client)
         (calls_create : Client -> CallRequest -> Py.result CreateResponse)
         (to_string : Element -> string)
         (env : environ) (req : Request),
    (forall l : string,
       method req = "GET" \/ method req = "POST" ->
       path req = "/ivr/main-menu/" ++ l ->
       no_slash l = true ->
       l <> "" ->
       exists resp,
         ivr_main_menu to_string env req (validate_language l) = inr resp /\
         dispatch_request RestClient calls_create to_string env req =
           Some (Served resp [])) /\
    (path req = "/ivr/main-menu/" ->
     dispatch_request RestClient calls_create to_string env req = None).
Proof.
  intros Client RestClient calls_create to_string env req. split.
  - intros l Hm Hp Hl Hne.
    destruct (ivr_main_menu_document env req l) as (doc & H & _).
    exists (Response (to_string doc) "text/xml").
    split; [rewrite ivr_main_menu_validated; apply (H to_string) |].
    unfold dispatch_request.
    assert (R : match_request req url_map = Some ("ivr_main_menu", [("lang", l)])).
    { destruct Hm as [Hm | Hm].
      - exact (routes_main_menu "GET" l (or_introl eq_refl) Hl Hne req Hm Hp).
      - exact (routes_main_menu "POST" l (or_intror eq_refl) Hl Hne req Hm Hp). }
    rewrite R. simpl. unfold with_lang. simpl.
    rewrite (H to_string). reflexivity.
  - intros Hp. unfold dispatch_request.
    assert (R : match_request req url_map = None).
    { unfold url_map. simpl. unfold match_rule. rewrite Hp. simpl.
      repeat match goal with
             | |- context [if ?b then _ else _] => destruct b
             end; reflexivity. }
    now rewrite R.
Qed.

Lemma language_segment_is_served_witness :
  no_slash "klingon" = true /\
  "klingon" <> "" /\
  dispatch_request Sample.client_ok (Sample.answers "c0ffee") Sample.render
    Sample.env (Sample.get "/ivr/main-menu/klingon") =
  option_map (fun r => Served r [])
    (match ivr_main_menu Sample.render Sample.env
             (Sample.get "/ivr/main-menu/klingon") "english" with
     | inr r => Some r
     | inl _ => None
     end).
Proof.
  assert (Hne : "klingon" <> "") by discriminate.
  split; [reflexivity |]. split; [exact Hne |].
  destruct (proj1 (language_segment_is_served unit Sample.client_ok
                     (Sample.answers "c0ffee") Sample.render Sample.env
                     (Sample.get "/ivr/main-menu/klingon"))
              "klingon" (or_introl eq_refl) eq_refl eq_refl Hne)
    as (resp & Hr & Hd).
  rewrite Hd. change (validate_language "klingon") with "english" in Hr.
  rewrite Hr. reflexivity.
Defined.

Lemma rstrip_slash_spec (s : string) :
  ends_with_slash (Py.rstrip_slash s) = false /\
  exists n, s = Py.rstrip_slash s ++ slashes n.
Proof.
  induction s as [| c s [IHe [n IHn]]]; simpl.
  - split; [reflexivity | now exists 0%nat].
  - destruct (Py.rstrip_slash s) as [| c' t] eqn:E.
    + destruct (Ascii.eqb c "/"%char) eqn:Hc.
      * split; [reflexivity |]. apply Ascii.eqb_eq in Hc. subst c.
        exists (S n). simpl. now rewrite IHn at 1.
      * split; [simpl; exact Hc |].
        exists n. simpl. now rewrite IHn at 1.
    + split; [exact IHe |].
      exists n. simpl. now rewrite IHn at 1.
Qed.

(** X15: without BASE_URL the callback URL is the URL root of the request
    with all its final slashes removed, and only those, followed by
    /ivr/welcome: the join never shows a doubled slash. *)
Theorem answer_url_has_no_doubled_slash :
  forall (Client : Type)
         (RestClient : option string -> option string -> Py.result Client)
         (calls_create : Client -> CallRequest -> Py.result CreateResponse)
         (env : environ) (req : Request)
         (d : list (string * Py.value)) (s : string) (client : Client),
    get_json req = inr (Py.VDict d) ->
    Py.assoc "target_number" d = Some (Py.VStr s) ->
    s <> "" ->
    RestClient (PLIVO_AUTH_ID env) (PLIVO_AUTH_TOKEN env) = inr client ->
    getenv env "BASE_URL" = None ->
    exists (r : CallRequest) (b : string) (n : nat),
      snd (make_call RestClient calls_create env req) = [r] /\
      answer_url r = b ++ "/ivr/welcome" /\
      ends_with_slash b = false /\
      url_root req = b ++ slashes n.
Proof.
  intros Client RestClient calls_create env req d s client Hj Ha Hs Hc Hb.
  destruct (rstrip_slash_spec (url_root req)) as [He [n Hn]].
  eexists. exists (Py.rstrip_slash (url_root req)), n. split.
  - rewrite (make_call_normalizes_destination_aux RestClient calls_create env req
               d s Hj Ha Hs).
    rewrite Hc. reflexivity.
  - simpl. unfold getenv_default. rewrite Hb. split; [reflexivity |].
    split; [exact He | exact Hn].
Qed.

Lemma answer_url_has_no_doubled_slash_witness :
  "14155550100" <> "" /\
  exists (r : CallRequest) (b : string) (n : nat),
    snd (make_call Sample.client_ok (Sample.answers "c0ffee") []
           (Sample.post_make_call
              (inr (Py.VDict [("target_number", Py.VStr "14155550100")])))) = [r] /\
    answer_url r = b ++ "/ivr/welcome" /\
    ends_with_slash b = false /\
    "http://localhost:5000/" = b ++ slashes n.
Proof.
  assert (Hs : "14155550100" <> "") by discriminate.
  split; [exact Hs |].
  exact (answer_url_has_no_doubled_slash unit Sample.client_ok
           (Sample.answers "c0ffee") []
           (Sample.post_make_call
              (inr (Py.VDict [("target_number", Py.VStr "14155550100")])))
           [("target_number", Py.VStr "14155550100")] "14155550100" tt
           eq_refl eq_refl Hs eq_refl eq_refl).
Defined.

(** X16: choosing a language leads to its menu.  On digit 1 (digit 2) the
    language handler redirects with GET to a URL whose path, requested with
    GET, is dispatched to the main menu of english (spanish), which answers
    with a response. *)
Theorem language_choice_reaches_its_menu :
  forall (Client : Type)
         (RestClient : option string -> option string -> Py.result Client)
         (calls_create : Client -> CallRequest -> Py.result CreateResponse)
         (to_string : Element -> string)
         (env : environ) (req req' : Request) (digit lang : string),
    (digit = "1" /\ lang = "english") \/ (digit = "2" /\ lang = "spanish") ->
    form_get req "Digits" "" = digit ->
    method req' = "GET" ->
    path req' = "/ivr/main-menu/" ++ lang ->
    ivr_language_handler to_string env req =
      inr (Response
             (to_string
                (ResponseElement
                   [ RedirectElement (Py.rstrip_slash (url_root req) ++ path req')
                       "GET" ]))
             "text/xml") /\
    exists resp,
      ivr_main_menu to_string env req' lang = inr resp /\
      dispatch_request RestClient calls_create to_string env req' =
        Some (Served resp []).
Proof.
  intros Client RestClient calls_create to_string env req req' digit lang
    Hc Hd Hm Hp.
  split.
  - unfold ivr_language_handler. rewrite Hd, Hp.
    destruct Hc as [[-> ->] | [-> ->]]; reflexivity.
  - destruct (ivr_main_menu_document env req' lang) as (doc & H & _).
    exists (Response (to_string doc) "text/xml").
    split; [apply (H to_string) |].
    assert (R : match_request req' url_map = Some ("ivr_main_menu", [("lang", lang)])).
    { apply (routes_main_menu "GET" lang (or_introl eq_refl)); trivial;
        destruct Hc as [[_ ->] | [_ ->]]; (reflexivity || discriminate). }
    unfold dispatch_request. rewrite R. simpl. unfold with_lang. simpl.
    rewrite (H to_string). reflexivity.
Qed.

Lemma language_choice_reaches_its_menu_witness :
  form_get (Sample.digits "/ivr/language-handler" "2") "Digits" "" = "2" /\
  ivr_language_handler Sample.render Sample.env
    (Sample.digits "/ivr/language-handler" "2") =
  inr (Response
         (Sample.render
            (ResponseElement
               [ RedirectElement "http://localhost:5000/ivr/main-menu/spanish" "GET" ]))
         "text/xml").
Proof.
  split; [reflexivity |].
  exact (proj1 (language_choice_reaches_its_menu unit Sample.client_ok
                  (Sample.answers "c0ffee") Sample.render Sample.env
                  (Sample.digits "/ivr/language-handler" "2")
                  (Sample.get "/ivr/main-menu/spanish") "2" "spanish"
                  (or_intror (conj eq_refl eq_refl)) eq_refl eq_refl eq_refl)).
Defined.
